(** * Verification of the MPL115A2 barometer driver (py-mpl115a2)

    A shallow embedding of [mpl115a2.py]: the register constants set up by the
    constructor, the three private register accessors, the two's complement
    decoder, the measurement routine [getPressTemp] and the guarded register
    write [setReg].  Python integers are [Z], Python floats are the kernel's
    binary64 floats, the instance dictionary is a finite map, and the I2C bus
    and the clock are an explicit world threaded through a state and
    exception monad. *)

From Stdlib Require Import ZArith List Lia Bool.
From Stdlib Require Import Floats.PrimFloat Floats.SpecFloat Floats.FloatOps.
From Stdlib Require Import Floats.FloatAxioms.
From Stdlib Require Import Strings.Ascii Numbers.DecimalString.
From Stdlib Require Import Numbers.Cyclic.Int63.Uint63.
From Stdlib Require Init.Byte.
From stdpp Require Import base option list strings gmap.

#[local] Set Warnings "-inexact-float".

Local Open Scope string_scope.
Local Open Scope list_scope.
Local Open Scope Z_scope.

(** ** Python values, exceptions and results *)

(** The exceptions the driver and the operations it uses can raise. *)
Inductive exn : Type :=
| IOError (msg : string)
| ValueError (msg : string)
| AttributeError (attr : string)
| IndexError
| TypeError.

(** Outcome of evaluating a Python expression: a value or a raised exception. *)
Inductive result (A : Type) : Type :=
| Ok (a : A)
| Raise (e : exn).
Arguments Ok {A} a.
Arguments Raise {A} e.

Definition rbind {A B} (r : result A) (k : A -> result B) : result B :=
  match r with
  | Ok a => k a
  | Raise e => Raise e
  end.

Declare Scope result_scope.
Delimit Scope result_scope with result.
Notation "'let?' x ':=' r 'in' k" := (rbind r (fun x => k))
  (at level 10, x pattern, r at level 100, k at level 200) : result_scope.

(** Python's [a << n] on unbounded integers: a negative count is an error. *)
Definition py_lshift (a n : Z) : result Z :=
  if n <? 0 then Raise (ValueError "negative shift count")
  else Ok (Z.shiftl a n).

(** Python's [l[i]] for a literal, non-negative index. *)
Definition py_index {A} (l : list A) (i : nat) : result A :=
  match l !! i with
  | Some x => Ok x
  | None => Raise IndexError
  end.

(** [bytearray(b)] of a bytes object: the sequence of its integers. *)
Definition bytearray (b : list Byte.byte) : list Z :=
  map (fun c => Z.of_N (Byte.to_N c)) b.

(** [ord(b)] of a bytes object: defined on length one only. *)
Definition py_ord (b : list Byte.byte) : result Z :=
  match b with
  | [c] => Ok (Z.of_N (Byte.to_N c))
  | _ => Raise TypeError
  end.

(** The two kinds of number the driver stores in its return list. *)
Inductive pyval : Type :=
| PyInt (z : Z)
| PyFloat (x : float).

(** ** Python floats

    A Python float is an IEEE 754 binary64 number, and so is Rocq's primitive
    [float]; [+], [-], [*] and [/] round to nearest, ties to even, in both. *)

(** Implicit conversion of an integer operand in mixed arithmetic, for
    integers below [2^63] in size.  Those the driver converts are below
    [2^16], so the conversion is exact. *)
Definition py_float (z : Z) : float :=
  if z <? 0 then (- of_uint63 (Uint63.of_Z (- z)))%float
  else of_uint63 (Uint63.of_Z z).

(** Quotient [p / q] rounded to the nearest integer, ties to even
    ([0 <= p], [0 < q]). *)
Definition round_half_even (p q : Z) : Z :=
  let d := p / q in
  let r := p mod q in
  if 2 * r <? q then d
  else if q <? 2 * r then d + 1
  else if Z.even d then d else d + 1.

(** The binary64 number nearest to [p / q] ([0 <= p], [0 < q]): the
    quotient is taken with more than 53 bits and a sticky last bit, and
    rounded once. *)
Definition nearest_float (p q : Z) : float :=
  if p =? 0 then 0%float
  else
    let k := 64 + Z.log2 q in
    let n := p * 2 ^ k in
    let m := n / q in
    let sticky := if n mod q =? 0 then m else Z.lor m 1 in
    SF2Prim (binary_normalize 53 1024 sticky (- k) false).

(** [round(x, ndigits)] for a float [x] and [0 <= ndigits], as CPython 3
    computes it: the exact value of [x] is rounded to [ndigits] decimals
    (ties to even), and that decimal is converted to the nearest float.
    Zeros, infinities and NaN are returned as they are. *)
Definition py_round (x : float) (ndigits : nat) : float :=
  match Prim2SF x with
  | S754_finite s m e =>
      let scale := 10 ^ Z.of_nat ndigits in
      let n := if 0 <=? e then Z.pos m * 2 ^ e * scale
               else round_half_even (Z.pos m * scale) (2 ^ (- e)) in
      let r := nearest_float n scale in
      if s then (- r)%float else r
  | _ => x
  end.

(** ** The I2C bus and the clock *)

(** The messages of [quick2wire.i2c]: [writing_bytes(addr, b, ...)] and
    [reading(addr, n)]. *)
Inductive i2c_msg : Type :=
| writing_bytes (addr : Z) (data : list Z)
| reading (addr : Z) (n_bytes : Z).

(** What [I2CMaster.transaction] does with a list of messages: it returns
    one bytes object per [reading] message, or raises [IOError]. *)
Inductive outcome : Type :=
| Done (reads : list (list Byte.byte))
| Failed (msg : string).

(** What the driver asks of its environment. *)
Inductive event : Type :=
| EvTransaction (msgs : list i2c_msg)
| EvSleep (usec : Z).

(** The environment of a run.  [bus k] is the outcome of the [k]-th
    transaction still to come, [lag k] the time (in microseconds) the [k]-th
    event still to come takes beyond its minimum, [clock] the current time
    and [log] the events issued so far, each with the time it started. *)
Record World : Type := mkWorld {
  bus : nat -> outcome;
  lag : nat -> N;
  clock : Z;
  log : list (Z * event)
}.

(** ** The state and exception monad *)

Definition M (A : Type) : Type := World -> result A * World.

Definition ret {A} (a : A) : M A := fun w => (Ok a, w).

Definition raise {A} (e : exn) : M A := fun w => (Raise e, w).

Definition bind {A B} (m : M A) (k : A -> M B) : M B :=
  fun w =>
    match m w with
    | (Ok a, w') => k a w'
    | (Raise e, w') => (Raise e, w')
    end.

Definition lift {A} (r : result A) : M A := fun w => (r, w).

Declare Scope monad_scope.
Delimit Scope monad_scope with M.
Notation "x <- m ;; k" := (bind m (fun x => k))
  (at level 100, m at next level, right associativity) : monad_scope.
Notation "m ;; k" := (bind m (fun _ => k))
  (at level 100, right associativity) : monad_scope.

(** [try: body except IOError: handler]. *)
Definition except_IOError {A} (body handler : M A) : M A :=
  fun w =>
    match body w with
    | (Raise (IOError _), w') => handler w'
    | other => other
    end.

(** The world once a transaction has been issued, whatever its outcome. *)
Definition after_transaction (msgs : list i2c_msg) (w : World) : World :=
  {| bus := fun k => bus w (S k);
     lag := fun k => lag w (S k);
     clock := clock w + Z.of_N (lag w 0%nat);
     log := log w ++ [(clock w, EvTransaction msgs)] |}.

(** [self.__i2cMaster.transaction(msgs...)]. *)
Definition transaction (msgs : list i2c_msg) : M (list (list Byte.byte)) :=
  fun w =>
    match bus w 0%nat with
    | Done reads => (Ok reads, after_transaction msgs w)
    | Failed msg => (Raise (IOError msg), after_transaction msgs w)
    end.

(** The world once a sleep of [usec] microseconds has returned. *)
Definition after_sleep (usec : Z) (w : World) : World :=
  {| bus := bus w;
     lag := fun k => lag w (S k);
     clock := clock w + usec + Z.of_N (lag w 0%nat);
     log := log w ++ [(clock w, EvSleep usec)] |}.

(** [time.sleep(secs)], the duration given in microseconds: the caller is
    blocked for at least that long. *)
Definition sleep (usec : Z) : M unit :=
  fun w => (Ok tt, after_sleep usec w).

(** ** The driver object: [__init__] (lines 25-46) *)

(** An instance: its I2C address and its public attributes by name.  The
    bus handles [__i2c] and [__i2cMaster] are the world's [bus]. *)
Record mpl115a2 : Type := {
  __addr : Z;
  __dict__ : gmap string Z
}.

Definition __init__ (mpl115a2Addr : Z) : mpl115a2 :=
  {| __addr := mpl115a2Addr;
     __dict__ := list_to_map
       [("regPadcMSB", 0x00); ("regPadcLSB", 0x01);
        ("regTadcMSB", 0x02); ("regTadcLSB", 0x03);
        ("regA0MSB", 0x04); ("regA0LSB", 0x05);
        ("regB1MSB", 0x06); ("regB1LSB", 0x07);
        ("regB2MSB", 0x08); ("regB2LSB", 0x09);
        ("regC12MSB", 0x0a); ("regC12LSB", 0x0b);
        ("regConvert", 0x12)] |}.

(** The address used when the constructor gets no argument. *)
Definition default_addr : Z := 0x60.

(** [self.name]: an attribute that was never set raises [AttributeError]. *)
Definition getattr (self : mpl115a2) (name : string) : M Z :=
  lift (match __dict__ self !! name with
        | Some v => Ok v
        | None => Raise (AttributeError name)
        end).

(** ** Register access (lines 48-97) *)

Definition read_failure : string :=
  "mpl115a2 IO Error: Failed to read MPL115A2 sensor on I2C bus.".

Definition write_failure : string :=
  "mpl115a2 IO Error: Failed to write to MPL115A2 sensor on I2C bus.".

(** [__readReg] (lines 48-65): both the transaction and the decoding of its
    answer are inside the [try] block. *)
Definition __readReg (self : mpl115a2) (register : Z) : M Z :=
  (except_IOError
     (res <- transaction [writing_bytes (__addr self) [register];
                          reading (__addr self) 1] ;;
      first <- lift (py_index res 0) ;;
      lift (py_ord first))
     (raise (IOError read_failure)))%M.

(** [__readRegRange] (lines 67-85): there is no [try] block here. *)
Definition __readRegRange (self : mpl115a2) (regStart regEnd : Z) : M (list Z) :=
  (let regCount := (regEnd - regStart) + 1 in
   regRange <- transaction [writing_bytes (__addr self) [regStart];
                            reading (__addr self) regCount] ;;
   first <- lift (py_index regRange 0) ;;
   ret (bytearray first))%M.

(** [__writeReg] (lines 87-97). *)
Definition __writeReg (self : mpl115a2) (register byte : Z) : M unit :=
  (except_IOError
     (transaction [writing_bytes (__addr self) [register; byte]] ;; ret tt)
     (raise (IOError write_failure)))%M.

(** ** Two's complement decoding: [__getSigned] (lines 99-116) *)

(** [bits] is 16 when the caller leaves it out. *)
Definition __getSigned (unsigned bits : Z) : result Z :=
  (let? mask := py_lshift 1 (bits - 1) in
   if negb (Z.land unsigned mask =? 0) then
     let? span := py_lshift 1 bits in
     Ok (unsigned - span)
   else
     Ok unsigned)%result.

(** ** The measurement: [getPressTemp] (lines 118-169) *)

(** [(b[i] << 8) | b[i + 1]], the expression the routine uses six times. *)
Definition word_at (b : list Z) (i : nat) : result Z :=
  (let? hi := py_index b i in
   let? lo := py_index b (S i) in
   Ok (Z.lor (Z.shiftl hi 8) lo))%result.

(** The integer locals of [getPressTemp] once line 154 has run. *)
Record decoded : Type := mkDecoded {
  a0 : Z; b1 : Z; b2 : Z; c12 : Z;
  pAdc : Z; tAdc : Z
}.

(** Lines 128-154: the I/O and the integer decoding. *)
Definition getPressTemp_decode (self : mpl115a2) : M decoded :=
  (regA0MSB <- getattr self "regA0MSB" ;;
   regC12LSB <- getattr self "regC12LSB" ;;
   coefficientBytes <- __readRegRange self regA0MSB regC12LSB ;;
   a0 <- lift (word_at coefficientBytes 0) ;;
   b1 <- lift (word_at coefficientBytes 2) ;;
   b2 <- lift (word_at coefficientBytes 4) ;;
   c12hi <- lift (word_at coefficientBytes 6) ;;
   let c12 := Z.shiftr c12hi 2 in
   regConvert <- getattr self "regConvert" ;;
   __writeReg self regConvert 0x00 ;;
   sleep 40000 ;;
   regPadcMSB <- getattr self "regPadcMSB" ;;
   regTadcLSB <- getattr self "regTadcLSB" ;;
   adcBytes <- __readRegRange self regPadcMSB regTadcLSB ;;
   p <- lift (word_at adcBytes 0) ;;
   let pAdc := Z.shiftr p 6 in
   t <- lift (word_at adcBytes 2) ;;
   let tAdc := Z.shiftr t 6 in
   a0 <- lift (__getSigned a0 16) ;;
   b1 <- lift (__getSigned b1 16) ;;
   b2 <- lift (__getSigned b2 16) ;;
   c12 <- lift (__getSigned c12 14) ;;
   ret (mkDecoded a0 b1 b2 c12 pAdc tAdc))%M.

(** The float coefficients after lines 157-160. *)
Record scaled : Type := mkScaled {
  a0f : float; b1f : float; b2f : float; c12f : float
}.

(** Lines 156-160: scaling of the coefficients. *)
Definition getPressTemp_scale (d : decoded) : scaled :=
  {| a0f := (py_float (a0 d) / 8.0)%float;
     b1f := (py_float (b1 d) / 8192.0)%float;
     b2f := (py_float (b2 d) / 16384.0)%float;
     c12f := (py_float (c12 d) / 4194304.0)%float |}.

(** Lines 126 and 162-169: compensation, temperature and the return list.
    An integer operand next to a float one is converted first. *)
Definition getPressTemp_compensate (k : scaled) (pAdc tAdc : Z) : list pyval :=
  let retVal := [PyInt 0; PyInt 0] in
  let pComp :=
    (a0f k + (b1f k + c12f k * py_float tAdc) * py_float pAdc
     + b2f k * py_float tAdc)%float in
  let retVal :=
    <[0%nat := PyFloat (py_round (pComp * (65.0 / 1023.0) + py_float 50)%float 2)]>
      retVal in
  let retVal :=
    <[1%nat := PyFloat (py_round ((py_float tAdc - 498.0) / -5.35 + 25.0)%float 1)]>
      retVal in
  retVal.

Definition getPressTemp (self : mpl115a2) : M (list pyval) :=
  (d <- getPressTemp_decode self ;;
   ret (getPressTemp_compensate (getPressTemp_scale d) (pAdc d) (tAdc d)))%M.

(** ** The guarded register write: [setReg] (lines 171-183) *)

Definition setReg (self : mpl115a2) (register value : Z) : M unit :=
  (regCfgA <- getattr self "regCfgA" ;;
   if register >=? regCfgA then
     regMode <- getattr self "regMode" ;;
     if register <=? regMode then
       __writeReg self register value
     else
       raise (ValueError "MPL115A2 register must be writable to set it.")
   else
     raise (ValueError "MPL115A2 register must be writable to set it."))%M.

(** ** The specification's wording, for comparison with the code *)

Module Spec.

(** Section 4.2, [toSigned]: two's complement interpretation. *)
Definition toSigned (unsigned bitWidth : Z) : Z :=
  if Z.testbit unsigned (bitWidth - 1) then unsigned - 2 ^ bitWidth
  else unsigned.

(** A big-endian 16-bit value: most significant byte first. *)
Definition big_endian (msb lsb : Z) : Z := 256 * msb + lsb.

(** Section 4.3, steps 2, 6 and 7, from the coefficient bytes [cb] and the
    ADC bytes [ab]; a right shift by [n] drops the [n] low bits. *)
Definition decode (cb ab : list Z) : decoded :=
  let c i := nth i cb 0 in
  let a i := nth i ab 0 in
  {| a0 := toSigned (big_endian (c 0%nat) (c 1%nat)) 16;
     b1 := toSigned (big_endian (c 2%nat) (c 3%nat)) 16;
     b2 := toSigned (big_endian (c 4%nat) (c 5%nat)) 16;
     c12 := toSigned (big_endian (c 6%nat) (c 7%nat) / 2 ^ 2) 14;
     pAdc := big_endian (a 0%nat) (a 1%nat) / 2 ^ 6;
     tAdc := big_endian (a 2%nat) (a 3%nat) / 2 ^ 6 |}.

(** Section 4.3, step 8. *)
Definition scale (d : decoded) : scaled :=
  {| a0f := (py_float (a0 d) / 8.0)%float;
     b1f := (py_float (b1 d) / 8192.0)%float;
     b2f := (py_float (b2 d) / 16384.0)%float;
     c12f := (py_float (c12 d) / 4194304.0)%float |}.

(** Section 4.3, step 9. *)
Definition pComp (k : scaled) (pAdc tAdc : Z) : float :=
  (a0f k + (b1f k + c12f k * py_float tAdc) * py_float pAdc
   + b2f k * py_float tAdc)%float.

(** Section 4.3, step 10. *)
Definition pressureKPa (k : scaled) (pAdc tAdc : Z) : float :=
  py_round (pComp k pAdc tAdc * (65.0 / 1023.0) + py_float 50)%float 2.

(** Section 4.3, step 11. *)
Definition temperatureC (tAdc : Z) : float :=
  py_round ((py_float tAdc - 498.0) / (-5.35) + 25.0)%float 1.

End Spec.

(** ** Vocabulary of the statements *)

(** The three transactions of a measurement, for a device at [addr]. *)
Definition coefficient_read (addr : Z) : list i2c_msg :=
  [writing_bytes addr [0x04]; reading addr 8].

Definition conversion_trigger (addr : Z) : list i2c_msg :=
  [writing_bytes addr [0x12; 0x00]].

Definition adc_read (addr : Z) : list i2c_msg :=
  [writing_bytes addr [0x00]; reading addr 4].

(** What [__readRegRange] hands back for the outcome of its transaction. *)
Definition range_answer (o : outcome) : result (list Z) :=
  match o with
  | Done (b :: _) => Ok (bytearray b)
  | Done [] => Raise IndexError
  | Failed msg => Raise (IOError msg)
  end.

(** The integer work of lines 131-135 on the coefficient bytes. *)
Definition coefficient_words (cb : list Z) : result (Z * Z * Z * Z) :=
  (let? a0 := word_at cb 0 in
   let? b1 := word_at cb 2 in
   let? b2 := word_at cb 4 in
   let? c12hi := word_at cb 6 in
   Ok (a0, b1, b2, Z.shiftr c12hi 2))%result.

(** The integer work of lines 147-154 on the ADC bytes and the words. *)
Definition finish_decode (cw : Z * Z * Z * Z) (ab : list Z) : result decoded :=
  (let '(a0, b1, b2, c12) := cw in
   let? p := word_at ab 0 in
   let? t := word_at ab 2 in
   let? a0 := __getSigned a0 16 in
   let? b1 := __getSigned b1 16 in
   let? b2 := __getSigned b2 16 in
   let? c12 := __getSigned c12 14 in
   Ok (mkDecoded a0 b1 b2 c12 (Z.shiftr p 6) (Z.shiftr t 6)))%result.

(** The four events of a complete measurement started in [w], each with
    the time at which it starts. *)
Definition measurement_events (addr : Z) (w : World) : list (Z * event) :=
  let t0 := clock w in
  let t1 := t0 + Z.of_N (lag w 0%nat) in
  let t2 := t1 + Z.of_N (lag w 1%nat) in
  let t3 := t2 + 40000 + Z.of_N (lag w 2%nat) in
  [(t0, EvTransaction (coefficient_read addr));
   (t1, EvTransaction (conversion_trigger addr));
   (t2, EvSleep 40000);
   (t3, EvTransaction (adc_read addr))].

(** The world once all four events of a measurement have happened. *)
Definition after_measurement (addr : Z) (w : World) : World :=
  after_transaction (adc_read addr)
    (after_sleep 40000
       (after_transaction (conversion_trigger addr)
          (after_transaction (coefficient_read addr) w))).

(** The transactions of a log, in the order they were issued. *)
Definition transactions (l : list (Z * event)) : list (list i2c_msg) :=
  omap (fun e => match e.2 with
                 | EvTransaction msgs => Some msgs
                 | EvSleep _ => None
                 end) l.

(** The log entries a run from [w] to [w'] has added. *)
Definition issued (w w' : World) : list (Z * event) :=
  drop (length (log w)) (log w').

(** The bytes a transaction returned for its first [reading] message. *)
Definition first_read (o : outcome) : option (list Byte.byte) :=
  match o with
  | Done (b :: _) => Some b
  | _ => None
  end.

(** The transport fails, with [msg], on the [k]-th transaction of a
    measurement ([k] is 0, 1 or 2), the earlier ones having gone through. *)
Definition transport_fails_at (w : World) (k : nat) (msg : string) : Prop :=
  match k with
  | 0%nat => bus w 0%nat = Failed msg
  | 1%nat =>
      (exists cb, first_read (bus w 0%nat) = Some cb /\ (8 <= length cb)%nat)
      /\ bus w 1%nat = Failed msg
  | 2%nat =>
      (exists cb, first_read (bus w 0%nat) = Some cb /\ (8 <= length cb)%nat)
      /\ (exists reads, bus w 1%nat = Done reads)
      /\ bus w 2%nat = Failed msg
  | _ => False
  end.

(** A world at time zero whose bus answers the coming transactions with the
    listed outcomes, each event taking [pause] microseconds of extra time. *)
Definition scripted (outs : list outcome) (pause : N) : World :=
  {| bus := fun k => nth k outs (Failed "[Errno 121] Remote I/O error");
     lag := fun _ => pause;
     clock := 0;
     log := [] |}.

(** The sample answers of the specification's section 8. *)
Definition sample_coefficients : list Byte.byte :=
  [Byte.x3e; Byte.xe8; Byte.x01; Byte.x3c; Byte.x00; Byte.x00; Byte.x7d; Byte.x98].

Definition sample_adc : list Byte.byte :=
  [Byte.x6c; Byte.x00; Byte.x7a; Byte.x40].

Definition sample_world : World :=
  scripted [Done [sample_coefficients]; Done []; Done [sample_adc]] 250.

(** The same answers at another address, another time and another pace. *)
Definition sample_world_later : World :=
  {| bus := bus sample_world;
     lag := fun k => N.of_nat k;
     clock := 1000000;
     log := [(0, EvSleep 1000000)] |}.

(** What the sample answers decode to. *)
Definition sample_decoded : decoded :=
  {| a0 := 16104; b1 := 316; b2 := 0; c12 := 8038; pAdc := 432; tAdc := 489 |}.

(** A world whose bus refuses every transaction. *)
Definition dead_bus : World := scripted [] 0.

(** An instance on which the two bounds of [setReg]'s guard have been set,
    to the values its docstring gives. *)
Definition with_bounds (self : mpl115a2) : mpl115a2 :=
  {| __addr := __addr self;
     __dict__ := <["regMode" := 0x02]> (<["regCfgA" := 0x00]> (__dict__ self)) |}.

(** ** The scaled coefficients as exact quotients *)

(** The binary64 number nearest to [n / 2^k].  For the integers the driver
    scales, which have sixteen bits at most, that is [n / 2^k] itself. *)
Definition dyadic (n k : Z) : float :=
  SF2Prim (binary_normalize 53 1024 n (- k) false).

(** Section 4.3, step 8, as quotients of integers: a0 / 8, b1 / 8192,
    b2 / 16384 and c12 / 4194304, the divisors being 2^3, 2^13, 2^14 and
    2^22. *)
Definition exact_scale (d : decoded) : scaled :=
  {| a0f := dyadic (a0 d) 3;
     b1f := dyadic (b1 d) 13;
     b2f := dyadic (b2 d) 14;
     c12f := dyadic (c12 d) 22 |}.

(** [f] holds of the [n] integers from [z] on. *)
Fixpoint all_from (f : Z -> bool) (z : Z) (n : nat) : bool :=
  match n with
  | O => true
  | S n => f z && all_from f (z + 1) n
  end.

(** Lines 157-159 give the exact quotients for the integer [z]. *)
Definition scaled16_exact (z : Z) : bool :=
  let k := getPressTemp_scale (mkDecoded z z z 0 0 0) in
  Leibniz.eqb (a0f k) (dyadic z 3)
  && Leibniz.eqb (b1f k) (dyadic z 13)
  && Leibniz.eqb (b2f k) (dyadic z 14).

(** Line 160 gives the exact quotient for the integer [z]. *)
Definition scaled14_exact (z : Z) : bool :=
  Leibniz.eqb (c12f (getPressTemp_scale (mkDecoded 0 0 0 z 0 0))) (dyadic z 22).

(** What the sample coefficients scale to: 16104 / 8, 316 / 8192, 0 / 16384
    and 8038 / 4194304, each written out in full. *)
Definition sample_scaled : scaled :=
  {| a0f := 2013;
     b1f := 0.03857421875;
     b2f := 0;
     c12f := 0.001916408538818359375 |}.

(** ** Vocabulary of the further properties *)

(** A world whose bus answers the next transaction with the single byte
    0x2a. *)
Definition one_byte_world : World := scripted [Done [[Byte.x2a]]] 0.

(** Worlds whose bus hands back too few bytes: two where eight coefficient
    bytes are read, one where four ADC bytes are read. *)
Definition short_coefficients_world : World :=
  scripted [Done [[Byte.x3e; Byte.xe8]]] 0.

Definition short_adc_world : World :=
  scripted [Done [sample_coefficients]; Done []; Done [[Byte.x6c]]] 0.

(** The sample answers with every padding bit set: the two low bits of
    coefficient byte 7, the six low bits of ADC bytes 1 and 3, and a byte
    more than asked for at the end of each. *)
Definition padded_world : World :=
  scripted
    [Done [[Byte.x3e; Byte.xe8; Byte.x01; Byte.x3c; Byte.x00; Byte.x00;
            Byte.x7d; Byte.x9b; Byte.xff]];
     Done [];
     Done [[Byte.x6c; Byte.x3f; Byte.x7a; Byte.x7f; Byte.xff]]] 0.

(** The sample coefficients with the highest temperature count there is. *)
Definition cold_world : World :=
  scripted [Done [sample_coefficients]; Done [];
            Done [[Byte.x6c; Byte.x00; Byte.xff; Byte.xc0]]] 0.

(** The bits of the two answers that the decoding looks at: coefficient
    bytes 0 to 6, byte 7 without its two low bits, ADC bytes 0 and 2, and
    ADC bytes 1 and 3 without their six low bits. *)
Definition significant (cb ab : list Z) : list Z :=
  take 7 cb ++ [nth 7 cb 0 / 4; nth 0 ab 0; nth 1 ab 0 / 64;
                nth 2 ab 0; nth 3 ab 0 / 64].

(** The same bits spelled back from the decoded integers: each signed
    word taken modulo its width and cut into the pieces it was made of. *)
Definition respell (d : decoded) : list Z :=
  let hi v := (v mod 2 ^ 16) / 256 in
  let lo v := (v mod 2 ^ 16) mod 256 in
  [hi (a0 d); lo (a0 d); hi (b1 d); lo (b1 d); hi (b2 d); lo (b2 d);
   (c12 d mod 2 ^ 14) / 64; (c12 d mod 2 ^ 14) mod 64;
   pAdc d / 4; pAdc d mod 4; tAdc d / 4; tAdc d mod 4].

(** The temperature computed for an ADC count lies between -73.1 and
    118.1 degrees. *)
Definition temperature_within (tAdc : Z) : bool :=
  (PrimFloat.leb (-73.1) (Spec.temperatureC tAdc)
   && PrimFloat.leb (Spec.temperatureC tAdc) 118.1)%bool.

(** The temperature computed for an ADC count is a number, and the one
    computed for the next count is not above it. *)
Definition temperature_steps_down (tAdc : Z) : bool :=
  (PrimFloat.leb (Spec.temperatureC tAdc) (Spec.temperatureC tAdc)
   && PrimFloat.leb (Spec.temperatureC (tAdc + 1)) (Spec.temperatureC tAdc))%bool.

(** An instance on which only the lower bound of [setReg]'s guard has been
    set. *)
Definition with_lower_bound (self : mpl115a2) (regCfgA : Z) : mpl115a2 :=
  {| __addr := __addr self;
     __dict__ := <["regCfgA" := regCfgA]> (__dict__ self) |}.

(** What [__init__] would be with the two bounds among its constants. *)
Definition bounded : mpl115a2 := with_bounds (__init__ default_addr).

(** ** [str] of a number *)

(** The decimal digits of a non-negative integer. *)
Definition digits (n : Z) : string :=
  NilZero.string_of_uint (N.to_uint (Z.to_N n)).

(** [k] times the digit 0. *)
Fixpoint zeros (k : nat) : string :=
  match k with
  | O => EmptyString
  | S k => String "0"%char (zeros k)
  end.

(** A digit string without the zeros at its end. *)
Fixpoint strip_zeros (s : string) : string :=
  match s with
  | EmptyString => EmptyString
  | String c rest =>
      match strip_zeros rest with
      | EmptyString =>
          if Ascii.eqb c "0"%char then EmptyString else String c EmptyString
      | rest' => String c rest'
      end
  end.

(** [p / q < 10^k], for [0 < p] and [0 < q]. *)
Definition below_pow10 (p q k : Z) : bool :=
  if 0 <=? k then p <? q * 10 ^ k else p * 10 ^ (- k) <? q.

Fixpoint decpt_from (fuel : nat) (p q k : Z) : Z :=
  match fuel with
  | O => k
  | S fuel =>
      if below_pow10 p q (k - 1) then decpt_from fuel p q (k - 1)
      else if below_pow10 p q k then k
      else decpt_from fuel p q (k + 1)
  end.

(** Where the decimal point of [p / q] goes: the [k] with
    [10^(k-1) <= p / q < 10^k], found from an estimate by the binary
    logarithms that is off by two at most. *)
Definition decpt (p q : Z) : Z :=
  decpt_from 8 p q (((Z.log2 p - Z.log2 q) * 30103) / 100000 + 1).

(** [d * 10^x] as a fraction. *)
Definition times_pow10 (d x : Z) : Z * Z :=
  if 0 <=? x then (d * 10 ^ x, 1) else (d, 10 ^ (- x)).

(** The shortest decimal that reads back as the float [x = p / q], as
    digits [d] and exponent [ex] with value [d * 10^ex]: for 1, 2, ...
    digits, the two decimals of that many digits around [p / q] are tried,
    and of two that read back as [x] the nearer one is taken.  Seventeen
    digits always do. *)
Fixpoint shortest (fuel : nat) (n : Z) (x : float) (p q k : Z) : Z * Z :=
  let '(sp, sq) := times_pow10 1 (n - k) in
  let num := p * sp in
  let den := q * sq in
  let lower := num / den in
  let upper := lower + 1 in
  let back d := let '(dp, dq) := times_pow10 d (k - n) in
                Leibniz.eqb (nearest_float dp dq) x in
  let pick :=
    match back lower, back upper with
    | true, false => Some lower
    | false, true => Some upper
    | true, true =>
        let r := num mod den in
        if 2 * r <? den then Some lower
        else if den <? 2 * r then Some upper
        else if Z.even lower then Some lower else Some upper
    | false, false => None
    end in
  match pick, fuel with
  | Some d, _ => (d, k - n)
  | None, O => (lower, k - n)
  | None, S fuel => shortest fuel (n + 1) x p q k
  end.

(** The digits [ds] written with the point after the first [pt] of them:
    in exponent form when [pt] is below -3 or above 16, else in full, with
    [.0] after a whole number. *)
Definition place (ds : string) (pt : Z) : string :=
  let n := Z.of_nat (String.length ds) in
  if (pt <=? -4) || (16 <? pt) then
    let mantissa :=
      match ds with
      | String c EmptyString => String c EmptyString
      | String c rest => String c ("." +:+ rest)
      | EmptyString => EmptyString
      end in
    let ex := pt - 1 in
    mantissa +:+ "e" +:+ (if ex <? 0 then "-" else "+")
      +:+ (if Z.abs ex <? 10 then "0" else "") +:+ digits (Z.abs ex)
  else if pt <=? 0 then
    "0." +:+ zeros (Z.to_nat (- pt)) +:+ ds
  else if pt <? n then
    String.substring 0 (Z.to_nat pt) ds +:+ "."
      +:+ String.substring (Z.to_nat pt) (Z.to_nat (n - pt)) ds
  else
    ds +:+ zeros (Z.to_nat (pt - n)) +:+ ".0".

(** [str(x)] of a float, which is its [repr]: the shortest decimal that
    reads back as [x], as CPython 3 writes it. *)
Definition py_repr_float (x : float) : string :=
  match Prim2SF x with
  | S754_zero s => if s then "-0.0" else "0.0"
  | S754_infinity s => if s then "-inf" else "inf"
  | S754_nan => "nan"
  | S754_finite s m e =>
      let '(p, q) := if 0 <=? e then (Z.pos m * 2 ^ e, 1)
                     else (Z.pos m, 2 ^ (- e)) in
      let '(d, ex) := shortest 17 1 (PrimFloat.abs x) p q (decpt p q) in
      let all := digits d in
      (if s then "-" else "")
        +:+ place (strip_zeros all) (Z.of_nat (String.length all) + ex)
  end.

(** [str(v)] of a number. *)
Definition py_str (v : pyval) : string :=
  match v with
  | PyInt z => (if z <? 0 then "-" else "") +:+ digits (Z.abs z)
  | PyFloat x => py_repr_float x
  end.

(** ** The demonstration script: [mpl115a2Test.py] *)

(** The script from its first statement to its last: the result, the world
    it leaves, and the lines it has printed.  A line is printed as soon as
    its text is built, so an exception after the first [print] leaves one
    line behind. *)
Definition mpl115a2Test (w : World) : result unit * World * list string :=
  let baroSens := __init__ default_addr in
  match getPressTemp baroSens w with
  | (Raise e, w') => (Raise e, w', [])
  | (Ok btData, w') =>
      match py_index btData 0 with
      | Raise e => (Raise e, w', [])
      | Ok pressure =>
          let line1 := "Barometric pressure (kPa): " +:+ py_str pressure in
          match py_index btData 1 with
          | Raise e => (Raise e, w', [line1])
          | Ok temperature =>
              (Ok tt, w',
               [line1; "Temperature (C):           " +:+ py_str temperature])
          end
      end
  end.

(** A decimal digit. *)
Definition is_digit (c : ascii) : bool :=
  Ascii.leb "0"%char c && Ascii.leb c "9"%char.

(** Digits, a point, and one digit. *)
Fixpoint digits_point_digit (s : string) : bool :=
  match s with
  | String c (String "."%char (String f EmptyString)) => is_digit c && is_digit f
  | String c rest => is_digit c && digits_point_digit rest
  | EmptyString => false
  end.

(** A number written with exactly one digit after the point. *)
Definition one_fraction_digit (s : string) : bool :=
  match s with
  | String "-"%char rest => digits_point_digit rest
  | _ => digits_point_digit s
  end.

(** The text of the temperature for an ADC count has one fraction digit. *)
Definition temperature_text_ok (tAdc : Z) : bool :=
  one_fraction_digit (py_repr_float (Spec.temperatureC tAdc)).

(** * Properties *)

(** ** Integer and bit arithmetic *)

Lemma land_pow2 (x n : Z) :
  0 <= n -> Z.land x (2 ^ n) = if Z.testbit x n then 2 ^ n else 0.
Proof.
  intros Hn. apply Z.bits_inj'. intros m Hm.
  rewrite Z.land_spec, Z.pow2_bits_eqb by lia.
  destruct (Z.eqb_spec n m) as [->|Hne].
  - destruct (Z.testbit x m); cbn.
    + now rewrite Z.pow2_bits_true by lia.
    + now rewrite Z.bits_0.
  - rewrite andb_false_r.
    destruct (Z.testbit x n).
    + now rewrite Z.pow2_bits_false by lia.
    + now rewrite Z.bits_0.
Qed.

Lemma py_lshift_one (n : Z) : 0 <= n -> py_lshift 1 n = Ok (2 ^ n).
Proof.
  intros Hn. unfold py_lshift.
  destruct (Z.ltb_spec n 0); [lia|].
  now rewrite Z.shiftl_1_l.
Qed.

(** The top bit of an unsigned [bits]-wide number is set exactly from
    [2 ^ (bits - 1)] on. *)
Lemma testbit_top (x bits : Z) :
  1 <= bits -> 0 <= x < 2 ^ bits ->
  Z.testbit x (bits - 1) = (2 ^ (bits - 1) <=? x).
Proof.
  intros Hb Hx.
  assert (Hp : 2 ^ bits = 2 * 2 ^ (bits - 1)).
  { rewrite <- Z.pow_succ_r by lia. f_equal. lia. }
  assert (Hpos : 0 < 2 ^ (bits - 1)) by (apply Z.pow_pos_nonneg; lia).
  destruct (Z.leb_spec (2 ^ (bits - 1)) x) as [Hge|Hlt].
  - apply Z.testbit_true; [lia|].
    assert (x / 2 ^ (bits - 1) = 1) as ->; [|reflexivity].
    symmetry. apply Z.div_unique with (r := x - 2 ^ (bits - 1)); lia.
  - apply Z.testbit_false; [lia|].
    rewrite Z.div_small by lia. reflexivity.
Qed.

(** Two bytes joined by shift and or are the big-endian number they spell. *)
Lemma lor_shiftl_bytes (hi lo : Z) :
  0 <= hi -> 0 <= lo < 256 ->
  Z.lor (Z.shiftl hi 8) lo = 256 * hi + lo.
Proof.
  intros Hhi Hlo.
  assert (Hdisjoint : Z.land (Z.shiftl hi 8) lo = 0).
  { apply Z.bits_inj'. intros n Hn.
    rewrite Z.land_spec, Z.bits_0.
    destruct (Z.ltb_spec n 8) as [Hlow|Hhigh].
    - now rewrite Z.shiftl_spec_low.
    - assert (Z.testbit lo n = false) as ->; [|apply andb_false_r].
      destruct (Z.eq_dec lo 0) as [->|Hnz]; [apply Z.bits_0|].
      apply Z.bits_above_log2; [lia|].
      apply Z.lt_le_trans with 8; [|exact Hhigh].
      apply Z.log2_lt_pow2; lia. }
  rewrite <- Z.lxor_lor, <- Z.add_nocarry_lxor by exact Hdisjoint.
  rewrite Z.shiftl_mul_pow2 by lia. lia.
Qed.

(** ** Rounding of floats *)

(** 0.125 is a binary64 number and a tie at two decimals: it goes to even. *)
Example py_round_tie : py_round 0.125 2 = 0.12%float.
Proof. reflexivity. Qed.

(** 2.675 is not one: the float that stands for it lies below the tie. *)
Example py_round_below_tie : py_round 2.675 2 = 2.67%float.
Proof. reflexivity. Qed.

Example py_round_up : py_round 101.325 2 = 101.33%float.
Proof. reflexivity. Qed.

(** The sign survives rounding to zero. *)
Example py_round_negative_zero : py_round (-0.001) 2 = (-0)%float.
Proof. reflexivity. Qed.

Example py_float_exact : (py_float (-32768) / 8.0)%float = (-4096)%float.
Proof. reflexivity. Qed.

(** ** [__getSigned] *)

Lemma getSigned_toSigned (x bits : Z) :
  1 <= bits -> __getSigned x bits = Ok (Spec.toSigned x bits).
Proof.
  intros Hb. unfold __getSigned, Spec.toSigned.
  rewrite py_lshift_one by lia. cbn [rbind].
  rewrite land_pow2 by lia.
  assert (Hpos : 0 < 2 ^ (bits - 1)) by (apply Z.pow_pos_nonneg; lia).
  destruct (Z.testbit x (bits - 1)).
  - destruct (Z.eqb_spec (2 ^ (bits - 1)) 0) as [Heq|_]; [lia|].
    cbn [negb]. rewrite py_lshift_one by lia. reflexivity.
  - reflexivity.
Qed.

(** C3. For every bit width [bits] of at least one bit (16 and 14 among
    them) and every integer [x], so in particular every unsigned [x] in
    [0, 2^bits), [__getSigned x bits] returns [x - 2^bits] when bit
    [bits - 1] of [x] is set and [x] itself otherwise. *)
Theorem getSigned_twos_complement (x bits : Z) :
  1 <= bits ->
  __getSigned x bits =
  Ok (if Z.testbit x (bits - 1) then x - 2 ^ bits else x).
Proof. exact (getSigned_toSigned x bits). Qed.

Lemma getSigned_twos_complement_witness :
  1 <= 16 /\ __getSigned 0x8000 16 = Ok (-32768).
Proof.
  split; [lia|].
  exact (getSigned_twos_complement 0x8000 16 ltac:(lia)).
Defined.

Example getSigned_0x8000 : __getSigned 0x8000 16 = Ok (-32768).
Proof. reflexivity. Qed.

Example getSigned_0x7FFF : __getSigned 0x7FFF 16 = Ok 32767.
Proof. reflexivity. Qed.

Example getSigned_0x2000_14 : __getSigned 0x2000 14 = Ok (-8192).
Proof. reflexivity. Qed.

(** A width of zero bits has no sign bit: Python refuses the shift. *)
Example getSigned_width_zero :
  __getSigned 0 0 = Raise (ValueError "negative shift count").
Proof. reflexivity. Qed.

(** On an unsigned [bits]-wide input the result is in the signed range. *)
Lemma toSigned_range (x bits : Z) :
  1 <= bits -> 0 <= x < 2 ^ bits ->
  - 2 ^ (bits - 1) <= Spec.toSigned x bits < 2 ^ (bits - 1).
Proof.
  intros Hb Hx. unfold Spec.toSigned.
  rewrite testbit_top by lia.
  assert (Hp : 2 ^ bits = 2 * 2 ^ (bits - 1)).
  { rewrite <- Z.pow_succ_r by lia. f_equal. lia. }
  destruct (Z.leb_spec (2 ^ (bits - 1)) x); lia.
Qed.

(** ** Running the monad *)

Lemma bind_ret_l {A B} (x : A) (k : A -> M B) : bind (ret x) k = k x.
Proof. reflexivity. Qed.

Lemma bind_lift {A B} (r : result A) (k : A -> M B) (w : World) :
  bind (lift r) k w =
  match r with
  | Ok x => k x w
  | Raise e => (Raise e, w)
  end.
Proof. reflexivity. Qed.

Lemma bind_run {A B} (m : M A) (k : A -> M B) (w : World) :
  bind m k w =
  match m w with
  | (Ok x, w') => k x w'
  | (Raise e, w') => (Raise e, w')
  end.
Proof. reflexivity. Qed.

(** ** The attributes the constructor sets, and the two it does not *)

Section Attributes.

Variable addr : Z.

Lemma getattr_regA0MSB : getattr (__init__ addr) "regA0MSB" = ret 0x04.
Proof. reflexivity. Qed.

Lemma getattr_regC12LSB : getattr (__init__ addr) "regC12LSB" = ret 0x0b.
Proof. reflexivity. Qed.

Lemma getattr_regConvert : getattr (__init__ addr) "regConvert" = ret 0x12.
Proof. reflexivity. Qed.

Lemma getattr_regPadcMSB : getattr (__init__ addr) "regPadcMSB" = ret 0x00.
Proof. reflexivity. Qed.

Lemma getattr_regTadcLSB : getattr (__init__ addr) "regTadcLSB" = ret 0x03.
Proof. reflexivity. Qed.

Lemma getattr_regCfgA :
  getattr (__init__ addr) "regCfgA" = raise (AttributeError "regCfgA").
Proof. reflexivity. Qed.

Lemma getattr_regMode :
  getattr (__init__ addr) "regMode" = raise (AttributeError "regMode").
Proof. reflexivity. Qed.

Lemma getattr_bounds_regCfgA :
  getattr (with_bounds (__init__ addr)) "regCfgA" = ret 0x00.
Proof. reflexivity. Qed.

Lemma getattr_bounds_regMode :
  getattr (with_bounds (__init__ addr)) "regMode" = ret 0x02.
Proof. reflexivity. Qed.

End Attributes.

(** ** The register accessors, run on any world *)

Lemma readReg_run (self : mpl115a2) (register : Z) (w : World) :
  __readReg self register w =
  (match bus w 0%nat with
   | Done [] => Raise IndexError
   | Done (first :: _) => py_ord first
   | Failed _ => Raise (IOError read_failure)
   end,
   after_transaction
     [writing_bytes (__addr self) [register]; reading (__addr self) 1] w).
Proof.
  unfold __readReg, except_IOError, bind, transaction, raise, lift.
  destruct (bus w 0%nat) as [[|first rest]|msg]; cbn; try reflexivity.
  unfold py_ord. destruct first as [|c [|c' rest']]; reflexivity.
Qed.

(** The equation is about messages the bus library accepts: a register
    number that is a byte and a count that is not negative. *)
Lemma readRegRange_run (self : mpl115a2) (regStart regEnd : Z) (w : World) :
  __readRegRange self regStart regEnd w =
  (range_answer (bus w 0%nat),
   after_transaction
     [writing_bytes (__addr self) [regStart];
      reading (__addr self) (regEnd - regStart + 1)] w).
Proof.
  unfold __readRegRange, bind, transaction, range_answer, lift, ret.
  destruct (bus w 0%nat) as [[|first rest]|msg]; reflexivity.
Qed.

(** The equation is about messages the bus library accepts: a register
    number and a value that are bytes. *)
Lemma writeReg_run (self : mpl115a2) (register byte : Z) (w : World) :
  __writeReg self register byte w =
  (match bus w 0%nat with
   | Done _ => Ok tt
   | Failed _ => Raise (IOError write_failure)
   end,
   after_transaction [writing_bytes (__addr self) [register; byte]] w).
Proof.
  unfold __writeReg, except_IOError, bind, transaction, raise, ret.
  destruct (bus w 0%nat); reflexivity.
Qed.

(** ** The measurement, run on any world *)

(** The decoding half of [getPressTemp] in closed form: which of the three
    transactions are issued, and what comes back, for every behaviour of the
    bus. *)
Lemma getPressTemp_decode_run (addr : Z) (w : World) :
  getPressTemp_decode (__init__ addr) w =
  let w1 := after_transaction (coefficient_read addr) w in
  let w2 := after_transaction (conversion_trigger addr) w1 in
  let w4 := after_transaction (adc_read addr) (after_sleep 40000 w2) in
  match range_answer (bus w 0%nat) with
  | Raise e => (Raise e, w1)
  | Ok cb =>
      match coefficient_words cb with
      | Raise e => (Raise e, w1)
      | Ok cw =>
          match bus w 1%nat with
          | Failed _ => (Raise (IOError write_failure), w2)
          | Done _ =>
              match range_answer (bus w 2%nat) with
              | Raise e => (Raise e, w4)
              | Ok ab => (finish_decode cw ab, w4)
              end
          end
      end
  end.
Proof.
  unfold getPressTemp_decode.
  rewrite getattr_regA0MSB, getattr_regC12LSB, getattr_regConvert,
    getattr_regPadcMSB, getattr_regTadcLSB.
  rewrite !bind_ret_l.
  rewrite bind_run, readRegRange_run.
  change (11 - 4 + 1) with 8. cbn [__addr __init__].
  fold (coefficient_read addr). cbv zeta.
  destruct (range_answer (bus w 0%nat)) as [cb|e]; [|reflexivity].
  unfold coefficient_words.
  rewrite bind_lift.
  destruct (word_at cb 0) as [a0|e]; [|reflexivity].
  rewrite bind_lift. cbn [rbind].
  destruct (word_at cb 2) as [b1|e]; [|reflexivity].
  rewrite bind_lift. cbn [rbind].
  destruct (word_at cb 4) as [b2|e]; [|reflexivity].
  rewrite bind_lift. cbn [rbind].
  destruct (word_at cb 6) as [c12hi|e]; [|reflexivity].
  cbn [rbind].
  rewrite bind_ret_l, bind_run, writeReg_run.
  cbn [__addr __init__]. fold (conversion_trigger addr).
  change (bus (after_transaction (coefficient_read addr) w) 0%nat)
    with (bus w 1%nat).
  destruct (bus w 1%nat) as [reads|msg]; [|reflexivity].
  rewrite bind_run. unfold sleep at 1.
  rewrite !bind_ret_l, bind_run, readRegRange_run.
  change (3 - 0 + 1) with 4. cbn [__addr __init__].
  fold (adc_read addr).
  change (bus (after_sleep 40000
                 (after_transaction (conversion_trigger addr)
                    (after_transaction (coefficient_read addr) w))) 0%nat)
    with (bus w 2%nat).
  destruct (range_answer (bus w 2%nat)) as [ab|e]; [|reflexivity].
  unfold finish_decode.
  rewrite bind_lift.
  destruct (word_at ab 0) as [p|e]; [|reflexivity].
  rewrite bind_lift. cbn [rbind].
  destruct (word_at ab 2) as [t|e]; [|reflexivity].
  rewrite bind_lift. cbn [rbind].
  destruct (__getSigned a0 16) as [a0'|e]; [|reflexivity].
  rewrite bind_lift. cbn [rbind].
  destruct (__getSigned b1 16) as [b1'|e]; [|reflexivity].
  rewrite bind_lift. cbn [rbind].
  destruct (__getSigned b2 16) as [b2'|e]; [|reflexivity].
  rewrite bind_lift. cbn [rbind].
  destruct (__getSigned (Z.shiftr c12hi 2) 14) as [c12'|e]; reflexivity.
Qed.

(** ** The integer decoding against the specification's wording *)

Lemma bytearray_length (b : list Byte.byte) : length (bytearray b) = length b.
Proof. unfold bytearray. apply length_map. Qed.

(** Every element of a bytearray, and the default outside it, is a byte. *)
Lemma bytearray_nth_range (b : list Byte.byte) (i : nat) :
  0 <= nth i (bytearray b) 0 < 256.
Proof.
  revert i. induction b as [|c b IH]; intros [|i]; cbn; try lia.
  - pose proof (Byte.to_N_bounded c). lia.
  - apply IH.
Qed.

Lemma word_at_Ok (b : list Z) (i : nat) :
  (S i < length b)%nat ->
  word_at b i = Ok (Z.lor (Z.shiftl (nth i b 0) 8) (nth (S i) b 0)).
Proof.
  intros Hlen. unfold word_at, py_index.
  destruct (lookup_lt_is_Some_2 b i ltac:(lia)) as [hi Hhi].
  destruct (lookup_lt_is_Some_2 b (S i) Hlen) as [lo Hlo].
  rewrite Hhi. cbn [rbind]. rewrite Hlo. cbn [rbind].
  now rewrite (nth_lookup_Some _ _ 0 _ Hhi), (nth_lookup_Some _ _ 0 _ Hlo).
Qed.

Lemma word_at_Raise (b : list Z) (i : nat) :
  (length b <= S i)%nat -> word_at b i = Raise IndexError.
Proof.
  intros Hlen. unfold word_at, py_index.
  destruct (b !! i); cbn [rbind]; [|reflexivity].
  now rewrite (lookup_ge_None_2 b (S i) Hlen).
Qed.

(** A word assembled from two bytes is the big-endian value of the pair. *)
Lemma word_at_bytearray (b : list Byte.byte) (i : nat) :
  (S i < length b)%nat ->
  word_at (bytearray b) i =
  Ok (Spec.big_endian (nth i (bytearray b) 0) (nth (S i) (bytearray b) 0)).
Proof.
  intros Hlen. rewrite word_at_Ok by now rewrite bytearray_length.
  pose proof (bytearray_nth_range b i).
  pose proof (bytearray_nth_range b (S i)).
  now rewrite lor_shiftl_bytes by lia.
Qed.

Lemma big_endian_range (msb lsb : Z) :
  0 <= msb < 256 -> 0 <= lsb < 256 ->
  0 <= Spec.big_endian msb lsb < 2 ^ 16.
Proof. unfold Spec.big_endian. change (2 ^ 16) with 65536. lia. Qed.

Lemma coefficient_words_Ok (cb : list Byte.byte) :
  (8 <= length cb)%nat ->
  let c i := nth i (bytearray cb) 0 in
  coefficient_words (bytearray cb) =
  Ok (Spec.big_endian (c 0%nat) (c 1%nat),
      Spec.big_endian (c 2%nat) (c 3%nat),
      Spec.big_endian (c 4%nat) (c 5%nat),
      Spec.big_endian (c 6%nat) (c 7%nat) / 2 ^ 2).
Proof.
  intros Hlen c. unfold coefficient_words.
  rewrite !word_at_bytearray by lia. cbn [rbind].
  now rewrite Z.shiftr_div_pow2 by lia.
Qed.

Lemma word_at_raises (b : list Z) (i : nat) (e : exn) :
  word_at b i = Raise e -> e = IndexError.
Proof.
  unfold word_at, py_index.
  destruct (b !! i); cbn [rbind]; [|congruence].
  destruct (b !! S i); cbn [rbind]; congruence.
Qed.

Lemma coefficient_words_short (cb : list Z) :
  (length cb < 8)%nat -> coefficient_words cb = Raise IndexError.
Proof.
  intros Hlen. unfold coefficient_words.
  destruct (word_at cb 0) eqn:E0; cbn [rbind];
    [|now rewrite (word_at_raises _ _ _ E0)].
  destruct (word_at cb 2) eqn:E2; cbn [rbind];
    [|now rewrite (word_at_raises _ _ _ E2)].
  destruct (word_at cb 4) eqn:E4; cbn [rbind];
    [|now rewrite (word_at_raises _ _ _ E4)].
  now rewrite word_at_Raise by lia.
Qed.

Lemma finish_decode_Ok (cw : Z * Z * Z * Z) (ab : list Byte.byte) :
  (4 <= length ab)%nat ->
  let a i := nth i (bytearray ab) 0 in
  finish_decode cw (bytearray ab) =
  Ok {| a0 := Spec.toSigned cw.1.1.1 16;
        b1 := Spec.toSigned cw.1.1.2 16;
        b2 := Spec.toSigned cw.1.2 16;
        c12 := Spec.toSigned cw.2 14;
        pAdc := Spec.big_endian (a 0%nat) (a 1%nat) / 2 ^ 6;
        tAdc := Spec.big_endian (a 2%nat) (a 3%nat) / 2 ^ 6 |}.
Proof.
  intros Hlen a. destruct cw as [[[a0 b1] b2] c12]. unfold finish_decode.
  rewrite !word_at_bytearray by lia. cbn [rbind].
  rewrite !getSigned_toSigned by lia. cbn [rbind fst snd].
  now rewrite !Z.shiftr_div_pow2 by lia.
Qed.

Lemma finish_decode_short (cw : Z * Z * Z * Z) (ab : list Z) :
  (length ab < 4)%nat -> finish_decode cw ab = Raise IndexError.
Proof.
  intros Hlen. destruct cw as [[[a0 b1] b2] c12]. unfold finish_decode.
  destruct (word_at ab 0) eqn:E0; cbn [rbind];
    [|now rewrite (word_at_raises _ _ _ E0)].
  now rewrite word_at_Raise by lia.
Qed.

(** The words and the finishing step together are the specification's
    decoding. *)
Lemma decode_words_spec (cb ab : list Byte.byte) :
  (8 <= length cb)%nat -> (4 <= length ab)%nat ->
  rbind (coefficient_words (bytearray cb))
    (fun cw => finish_decode cw (bytearray ab)) =
  Ok (Spec.decode (bytearray cb) (bytearray ab)).
Proof.
  intros Hcb Hab.
  rewrite coefficient_words_Ok by exact Hcb. cbn [rbind].
  now rewrite finish_decode_Ok by exact Hab.
Qed.

(** ** The log of a measurement *)

Lemma log_after_coefficient_read (addr : Z) (w : World) :
  log (after_transaction (coefficient_read addr) w) =
  log w ++ take 1 (measurement_events addr w).
Proof. reflexivity. Qed.

Lemma log_after_trigger (addr : Z) (w : World) :
  log (after_transaction (conversion_trigger addr)
         (after_transaction (coefficient_read addr) w)) =
  log w ++ take 2 (measurement_events addr w).
Proof. cbn. now rewrite <- app_assoc. Qed.

Lemma log_after_measurement (addr : Z) (w : World) :
  log (after_measurement addr w) = log w ++ measurement_events addr w.
Proof. cbn. now rewrite <- !app_assoc. Qed.

Lemma issued_app (w w' : World) (l : list (Z * event)) :
  log w' = log w ++ l -> issued w w' = l.
Proof. intros H. unfold issued. rewrite H. apply drop_app_length. Qed.

Lemma transactions_app (l k : list (Z * event)) :
  transactions (l ++ k) = transactions l ++ transactions k.
Proof. apply omap_app. Qed.

(** ** Successful decoding, forwards and backwards *)

Lemma range_answer_Ok (o : outcome) (l : list Z) :
  range_answer o = Ok l <->
  exists b, first_read o = Some b /\ l = bytearray b.
Proof.
  destruct o as [[|b rest]|msg]; cbn; split.
  all: try discriminate.
  all: try (intros (b' & Hb & _); discriminate).
  - intros [= <-]. now exists b.
  - intros (b' & [= <-] & ->). reflexivity.
Qed.

Lemma getPressTemp_decode_Ok (addr : Z) (w : World) (cb ab : list Byte.byte) :
  first_read (bus w 0%nat) = Some cb -> (8 <= length cb)%nat ->
  (exists reads, bus w 1%nat = Done reads) ->
  first_read (bus w 2%nat) = Some ab -> (4 <= length ab)%nat ->
  getPressTemp_decode (__init__ addr) w =
  (Ok (Spec.decode (bytearray cb) (bytearray ab)), after_measurement addr w).
Proof.
  intros Hcb Hlc [reads Hw] Hab Hla.
  rewrite getPressTemp_decode_run. cbv zeta.
  rewrite (proj2 (range_answer_Ok _ _) (ex_intro _ cb (conj Hcb eq_refl))).
  pose proof (decode_words_spec cb ab Hlc Hla) as Hspec.
  destruct (coefficient_words (bytearray cb)) as [cw|e]; [|discriminate].
  cbn [rbind] in Hspec. rewrite Hw.
  rewrite (proj2 (range_answer_Ok _ _) (ex_intro _ ab (conj Hab eq_refl))).
  now rewrite Hspec.
Qed.

Lemma getPressTemp_decode_Ok_inv (addr : Z) (w w' : World) (d : decoded) :
  getPressTemp_decode (__init__ addr) w = (Ok d, w') ->
  exists cb ab,
    first_read (bus w 0%nat) = Some cb /\ (8 <= length cb)%nat /\
    (exists reads, bus w 1%nat = Done reads) /\
    first_read (bus w 2%nat) = Some ab /\ (4 <= length ab)%nat /\
    d = Spec.decode (bytearray cb) (bytearray ab) /\
    w' = after_measurement addr w.
Proof.
  rewrite getPressTemp_decode_run. cbv zeta. intros Hrun.
  destruct (range_answer (bus w 0%nat)) as [cbs|e] eqn:E0; [|discriminate].
  apply range_answer_Ok in E0 as (cb & Hcb & ->).
  destruct (le_lt_dec 8 (length cb)) as [Hlc|Hlc];
    [|rewrite coefficient_words_short in Hrun
        by (now rewrite bytearray_length); discriminate].
  rewrite coefficient_words_Ok in Hrun by exact Hlc.
  destruct (bus w 1%nat) as [reads|msg] eqn:E1; [|discriminate].
  destruct (range_answer (bus w 2%nat)) as [abs|e] eqn:E2; [|discriminate].
  apply range_answer_Ok in E2 as (ab & Hab & ->).
  destruct (le_lt_dec 4 (length ab)) as [Hla|Hla];
    [|rewrite finish_decode_short in Hrun
        by (now rewrite bytearray_length); discriminate].
  rewrite finish_decode_Ok in Hrun by exact Hla.
  injection Hrun as <- <-.
  exists cb, ab. repeat split; eauto.
Qed.

(** A decoded record is within the ranges of its fields. *)
Lemma decode_ranges (cb ab : list Byte.byte) :
  let d := Spec.decode (bytearray cb) (bytearray ab) in
  (0 <= pAdc d <= 1023) /\ (0 <= tAdc d <= 1023) /\
  (-32768 <= a0 d <= 32767) /\ (-32768 <= b1 d <= 32767) /\
  (-32768 <= b2 d <= 32767) /\ (-8192 <= c12 d <= 8191).
Proof.
  cbn zeta. unfold Spec.decode. cbn [a0 b1 b2 c12 pAdc tAdc].
  assert (Hadc : forall msb lsb, 0 <= msb < 256 -> 0 <= lsb < 256 ->
            0 <= Spec.big_endian msb lsb / 2 ^ 6 <= 1023).
  { intros msb lsb Hm Hl. pose proof (big_endian_range msb lsb Hm Hl) as Hr.
    change (2 ^ 16) with (1024 * 2 ^ 6) in Hr.
    split; [apply Z.div_pos; lia|].
    assert (Spec.big_endian msb lsb / 2 ^ 6 < 1024); [|lia].
    apply Z.div_lt_upper_bound; lia. }
  assert (H16 : forall msb lsb, 0 <= msb < 256 -> 0 <= lsb < 256 ->
            -32768 <= Spec.toSigned (Spec.big_endian msb lsb) 16 <= 32767).
  { intros msb lsb Hm Hl. pose proof (big_endian_range msb lsb Hm Hl) as Hr.
    pose proof (toSigned_range _ 16 ltac:(lia) Hr) as Hs.
    change (2 ^ (16 - 1)) with 32768 in Hs. lia. }
  assert (H14 : forall msb lsb, 0 <= msb < 256 -> 0 <= lsb < 256 ->
            -8192 <= Spec.toSigned (Spec.big_endian msb lsb / 2 ^ 2) 14 <= 8191).
  { intros msb lsb Hm Hl. pose proof (big_endian_range msb lsb Hm Hl) as Hr.
    change (2 ^ 16) with (2 ^ 14 * 2 ^ 2) in Hr.
    assert (Hq : 0 <= Spec.big_endian msb lsb / 2 ^ 2 < 2 ^ 14).
    { split; [apply Z.div_pos; lia|apply Z.div_lt_upper_bound; lia]. }
    pose proof (toSigned_range _ 14 ltac:(lia) Hq) as Hs.
    change (2 ^ (14 - 1)) with 8192 in Hs. lia. }
  repeat split; try apply Hadc; try apply H16; try apply H14;
    apply bytearray_nth_range.
Qed.

(** ** The measurement as a whole *)

Lemma getPressTemp_Ok_inv (self : mpl115a2) (w w' : World) (r : list pyval) :
  getPressTemp self w = (Ok r, w') ->
  exists d,
    getPressTemp_decode self w = (Ok d, w') /\
    r = getPressTemp_compensate (getPressTemp_scale d) (pAdc d) (tAdc d).
Proof.
  unfold getPressTemp. rewrite bind_run.
  destruct (getPressTemp_decode self w) as [[d|e] w1]; [|discriminate].
  intros [= <- <-]. now exists d.
Qed.

Lemma getPressTemp_world (self : mpl115a2) (w : World) :
  snd (getPressTemp self w) = snd (getPressTemp_decode self w).
Proof.
  unfold getPressTemp. rewrite bind_run.
  now destruct (getPressTemp_decode self w) as [[d|e] w1].
Qed.

Lemma compensate_formula (k : scaled) (pAdc tAdc : Z) :
  getPressTemp_compensate k pAdc tAdc =
  [PyFloat (Spec.pressureKPa k pAdc tAdc); PyFloat (Spec.temperatureC tAdc)].
Proof. reflexivity. Qed.


Lemma sample_world_decodes :
  getPressTemp_decode (__init__ default_addr) sample_world =
  (Ok sample_decoded, after_measurement default_addr sample_world).
Proof. reflexivity. Qed.

Lemma sample_world_measures :
  getPressTemp (__init__ default_addr) sample_world =
  (Ok [PyFloat 204.68; PyFloat 26.7],
   after_measurement default_addr sample_world).
Proof. vm_compute. reflexivity. Qed.


Lemma sample_world_answers :
  first_read (bus sample_world 0%nat) = Some sample_coefficients /\
  (8 <= length sample_coefficients)%nat /\
  (exists reads, bus sample_world 1%nat = Done reads) /\
  first_read (bus sample_world 2%nat) = Some sample_adc /\
  (4 <= length sample_adc)%nat.
Proof. cbn. repeat split; try lia. now exists []. Qed.

Lemma all_from_spec (f : Z -> bool) (n : nat) :
  forall z, all_from f z n = true ->
  forall x, z <= x < z + Z.of_nat n -> f x = true.
Proof.
  induction n as [|n IH]; intros z H x Hx; [lia|].
  cbn [all_from] in H. apply andb_prop in H as [Hz Hrest].
  destruct (Z.eq_dec x z) as [->|Hne]; [exact Hz|].
  apply (IH (z + 1) Hrest). lia.
Qed.

Lemma scaled16_exact_all (z : Z) :
  -32768 <= z <= 32767 -> scaled16_exact z = true.
Proof.
  intros Hz.
  apply (all_from_spec scaled16_exact (Z.to_nat 65536) (-32768));
    [|rewrite Z2Nat.id; lia].
  vm_compute. reflexivity.
Qed.

Lemma scaled14_exact_all (z : Z) :
  -8192 <= z <= 8191 -> scaled14_exact z = true.
Proof.
  intros Hz.
  apply (all_from_spec scaled14_exact (Z.to_nat 16384) (-8192));
    [|rewrite Z2Nat.id; lia].
  vm_compute. reflexivity.
Qed.

(** On decoded integers within their ranges the float division of lines
    157-160 is exact: converting the integer and dividing by the power of
    two gives the quotient itself. *)
Lemma getPressTemp_scale_exact (d : decoded) :
  -32768 <= a0 d <= 32767 -> -32768 <= b1 d <= 32767 ->
  -32768 <= b2 d <= 32767 -> -8192 <= c12 d <= 8191 ->
  getPressTemp_scale d = exact_scale d.
Proof.
  intros Ha0 Hb1 Hb2 Hc12.
  pose proof (scaled16_exact_all _ Ha0) as Ea0.
  pose proof (scaled16_exact_all _ Hb1) as Eb1.
  pose proof (scaled16_exact_all _ Hb2) as Eb2.
  pose proof (scaled14_exact_all _ Hc12) as Ec12.
  unfold scaled16_exact in Ea0, Eb1, Eb2. unfold scaled14_exact in Ec12.
  cbv zeta in Ea0, Eb1, Eb2.
  apply andb_prop in Ea0 as [Ea0 _]. apply andb_prop in Ea0 as [Ea0 _].
  apply andb_prop in Eb1 as [Eb1 _]. apply andb_prop in Eb1 as [_ Eb1].
  apply andb_prop in Eb2 as [_ Eb2].
  apply FloatAxioms.Leibniz.eqb_spec in Ea0, Eb1, Eb2, Ec12.
  unfold getPressTemp_scale, exact_scale.
  cbn [a0f b1f b2f c12f getPressTemp_scale a0 b1 b2 c12] in Ea0, Eb1, Eb2, Ec12.
  now rewrite Ea0, Eb1, Eb2, Ec12.
Qed.

Example dyadic_eighth : dyadic 1 3 = 0.125%float.
Proof. reflexivity. Qed.

Example dyadic_lowest : dyadic (-32768) 3 = (-4096)%float.
Proof. reflexivity. Qed.

Example sample_scaled_exact : exact_scale sample_decoded = sample_scaled.
Proof. reflexivity. Qed.

(** C4. When the coefficient read returns (at least) eight bytes and the
    ADC read (at least) four, with the trigger write going through,
    [getPressTemp] decodes them as the specification says: big-endian
    16-bit a0, b1, b2 from bytes 0-1, 2-3, 4-5, c12 from bytes 6-7 shifted
    right by two, pAdc and tAdc from the ADC byte pairs shifted right by
    six, a0, b1, b2 sign-extended at 16 bits and c12 at 14; its scaled
    coefficients are the quotients a0 / 8, b1 / 8192, b2 / 16384 and
    c12 / 4194304 themselves, without rounding; and the list it returns is
    computed from these. *)
Theorem getPressTemp_decodes_bytes
    (addr : Z) (w : World) (cb ab : list Byte.byte) :
  first_read (bus w 0%nat) = Some cb -> (8 <= length cb)%nat ->
  (exists reads, bus w 1%nat = Done reads) ->
  first_read (bus w 2%nat) = Some ab -> (4 <= length ab)%nat ->
  let d := Spec.decode (bytearray cb) (bytearray ab) in
  getPressTemp_decode (__init__ addr) w = (Ok d, after_measurement addr w) /\
  getPressTemp_scale d = Spec.scale d /\
  getPressTemp_scale d = exact_scale d /\
  getPressTemp (__init__ addr) w =
  (Ok (getPressTemp_compensate (Spec.scale d) (pAdc d) (tAdc d)),
   after_measurement addr w) /\
  getPressTemp (__init__ addr) w =
  (Ok (getPressTemp_compensate (exact_scale d) (pAdc d) (tAdc d)),
   after_measurement addr w).
Proof.
  intros Hcb Hlc Hw Hab Hla d.
  pose proof (getPressTemp_decode_Ok addr w cb ab Hcb Hlc Hw Hab Hla) as Hd.
  fold d in Hd.
  assert (Hexact : getPressTemp_scale d = exact_scale d).
  { destruct (decode_ranges cb ab) as (_ & _ & Ha0 & Hb1 & Hb2 & Hc12).
    now apply getPressTemp_scale_exact. }
  assert (Hrun : getPressTemp (__init__ addr) w =
                 (Ok (getPressTemp_compensate (getPressTemp_scale d)
                        (pAdc d) (tAdc d)),
                  after_measurement addr w)).
  { unfold getPressTemp. now rewrite bind_run, Hd. }
  split; [exact Hd|]. split; [reflexivity|]. split; [exact Hexact|].
  split; [exact Hrun|]. now rewrite <- Hexact.
Qed.

Lemma getPressTemp_decodes_bytes_witness :
  let d := Spec.decode (bytearray sample_coefficients) (bytearray sample_adc) in
  (d = sample_decoded /\ exact_scale d = sample_scaled) /\
  getPressTemp_decode (__init__ default_addr) sample_world =
  (Ok d, after_measurement default_addr sample_world) /\
  getPressTemp_scale d = Spec.scale d /\
  getPressTemp_scale d = sample_scaled /\
  getPressTemp (__init__ default_addr) sample_world =
  (Ok (getPressTemp_compensate (Spec.scale d) (pAdc d) (tAdc d)),
   after_measurement default_addr sample_world) /\
  getPressTemp (__init__ default_addr) sample_world =
  (Ok (getPressTemp_compensate sample_scaled (pAdc d) (tAdc d)),
   after_measurement default_addr sample_world).
Proof.
  split; [split; reflexivity|].
  destruct sample_world_answers as (Hcb & Hlc & Hw & Hab & Hla).
  exact (getPressTemp_decodes_bytes default_addr sample_world
           sample_coefficients sample_adc Hcb Hlc Hw Hab Hla).
Defined.

(** C9. Whatever the transport answers, the integers [getPressTemp] has
    decoded once line 154 has run are in range: pAdc and tAdc in
    [0, 1023], a0, b1 and b2 in [-32768, 32767], and the 14-bit c12 in
    [-8192, 8191]. *)
Theorem getPressTemp_decoded_ranges
    (addr : Z) (w w' : World) (d : decoded) :
  getPressTemp_decode (__init__ addr) w = (Ok d, w') ->
  (0 <= pAdc d <= 1023) /\ (0 <= tAdc d <= 1023) /\
  (-32768 <= a0 d <= 32767) /\ (-32768 <= b1 d <= 32767) /\
  (-32768 <= b2 d <= 32767) /\ (-8192 <= c12 d <= 8191).
Proof.
  intros Hrun.
  apply getPressTemp_decode_Ok_inv in Hrun
    as (cb & ab & _ & _ & _ & _ & _ & -> & _).
  apply decode_ranges.
Qed.

Lemma getPressTemp_decoded_ranges_witness :
  getPressTemp_decode (__init__ default_addr) sample_world =
  (Ok sample_decoded, after_measurement default_addr sample_world) /\
  (0 <= 432 <= 1023) /\ (0 <= 489 <= 1023) /\
  (-32768 <= 16104 <= 32767) /\ (-32768 <= 316 <= 32767) /\
  (-32768 <= 0 <= 32767) /\ (-8192 <= 8038 <= 8191).
Proof.
  split; [reflexivity|].
  exact (getPressTemp_decoded_ranges default_addr sample_world _ sample_decoded
           sample_world_decodes).
Defined.

Lemma getPressTemp_transactions
    (addr : Z) (w w' : World) (r : list pyval) :
  getPressTemp (__init__ addr) w = (Ok r, w') ->
  transactions (log w') =
  transactions (log w) ++
  [coefficient_read addr; conversion_trigger addr; adc_read addr].
Proof.
  intros Hrun.
  apply getPressTemp_Ok_inv in Hrun as (d & Hd & _).
  apply getPressTemp_decode_Ok_inv in Hd
    as (cb & ab & _ & _ & _ & _ & _ & _ & ->).
  now rewrite log_after_measurement, transactions_app.
Qed.

(** Nothing is kept from one call to the next: a second call reads the
    coefficients again. *)
Lemma getPressTemp_twice
    (addr : Z) (w w1 w2 : World) (r1 r2 : list pyval) :
  getPressTemp (__init__ addr) w = (Ok r1, w1) ->
  getPressTemp (__init__ addr) w1 = (Ok r2, w2) ->
  transactions (log w2) =
  transactions (log w) ++
  [coefficient_read addr; conversion_trigger addr; adc_read addr;
   coefficient_read addr; conversion_trigger addr; adc_read addr].
Proof.
  intros H1 H2.
  rewrite (getPressTemp_transactions _ _ _ _ H2),
    (getPressTemp_transactions _ _ _ _ H1).
  now rewrite <- app_assoc.
Qed.

(** C6. Every successful call of [getPressTemp] adds exactly three
    transactions to those already made, in this order: one read of the eight
    coefficient registers from 0x04, one write of 0x00 to register 0x12, and
    one read of the four ADC registers from 0x00.  This holds from any world,
    so for every call anew. *)
Theorem getPressTemp_io_sequence
    (addr : Z) (w w' : World) (r : list pyval) :
  getPressTemp (__init__ addr) w = (Ok r, w') ->
  transactions (log w') =
  transactions (log w) ++
  [[writing_bytes addr [0x04]; reading addr 8];
   [writing_bytes addr [0x12; 0x00]];
   [writing_bytes addr [0x00]; reading addr 4]].
Proof. exact (getPressTemp_transactions addr w w' r). Qed.

Lemma getPressTemp_io_sequence_witness :
  getPressTemp (__init__ default_addr) sample_world =
  (Ok [PyFloat 204.68; PyFloat 26.7],
   after_measurement default_addr sample_world) /\
  transactions (log (after_measurement default_addr sample_world)) =
  transactions (log sample_world) ++
  [[writing_bytes default_addr [0x04]; reading default_addr 8];
   [writing_bytes default_addr [0x12; 0x00]];
   [writing_bytes default_addr [0x00]; reading default_addr 4]].
Proof.
  split; [exact sample_world_measures|].
  exact (getPressTemp_io_sequence default_addr sample_world _ _
           sample_world_measures).
Defined.

(** ** Transport failures during a measurement *)

Lemma first_read_range_answer (o : outcome) (b : list Byte.byte) :
  first_read o = Some b -> range_answer o = Ok (bytearray b).
Proof. intros H. apply range_answer_Ok. now exists b. Qed.

(** C5. If the transport fails on the coefficient read, [getPressTemp]
    raises that [IOError] having issued the one read and nothing else: no
    trigger write, no second attempt, no measurement.  If it fails on the
    trigger write, or on the ADC read, the call raises [IOError] as well,
    having issued the transactions up to the failing one, once each. *)
Theorem getPressTemp_transport_failure
    (addr : Z) (w : World) (k : nat) (msg : string) :
  transport_fails_at w k msg ->
  let run := getPressTemp (__init__ addr) w in
  fst run = Raise (IOError (if Nat.eqb k 1 then write_failure else msg)) /\
  transactions (issued w (snd run)) =
  take (S k) [[writing_bytes addr [0x04]; reading addr 8];
              [writing_bytes addr [0x12; 0x00]];
              [writing_bytes addr [0x00]; reading addr 4]].
Proof.
  intros Hfail run. subst run.
  unfold getPressTemp. rewrite bind_run, getPressTemp_decode_run. cbv zeta.
  destruct k as [|[|[|k]]]; cbn [transport_fails_at] in Hfail.
  - rewrite Hfail. cbn [range_answer fst snd]. split; [reflexivity|].
    now rewrite (issued_app _ _ _ (log_after_coefficient_read addr w)).
  - destruct Hfail as ((cb & Hcb & Hlc) & Hw).
    rewrite (first_read_range_answer _ _ Hcb), coefficient_words_Ok, Hw
      by exact Hlc.
    cbn [fst snd]. split; [reflexivity|].
    now rewrite (issued_app _ _ _ (log_after_trigger addr w)).
  - destruct Hfail as ((cb & Hcb & Hlc) & (reads & Hw) & Hadc).
    rewrite (first_read_range_answer _ _ Hcb), coefficient_words_Ok, Hw, Hadc
      by exact Hlc.
    cbn [range_answer fst snd]. split; [reflexivity|].
    fold (after_measurement addr w).
    now rewrite (issued_app _ _ _ (log_after_measurement addr w)).
  - contradiction.
Qed.

Lemma getPressTemp_transport_failure_witness :
  transport_fails_at dead_bus 0 "[Errno 121] Remote I/O error" /\
  fst (getPressTemp (__init__ default_addr) dead_bus) =
  Raise (IOError "[Errno 121] Remote I/O error") /\
  transactions (issued dead_bus (snd (getPressTemp (__init__ default_addr) dead_bus))) =
  [[writing_bytes default_addr [0x04]; reading default_addr 8]].
Proof.
  split; [reflexivity|].
  exact (getPressTemp_transport_failure default_addr dead_bus 0
           "[Errno 121] Remote I/O error" eq_refl).
Defined.

(** ** The conversion wait *)

(** C8. In every call of [getPressTemp], whatever the bus does: if the ADC
    read is issued at all, the call has issued exactly the coefficient read,
    the trigger write, one sleep of 40 000 microseconds and the ADC read, in
    this order, and the ADC read starts at least 40 ms after the trigger
    write started.  The duration is a constant of the routine: neither the
    instance nor the world enters it. *)
Theorem getPressTemp_conversion_wait (addr : Z) (w : World) (tr : Z) :
  let w' := snd (getPressTemp (__init__ addr) w) in
  In (tr, EvTransaction (adc_read addr)) (issued w w') ->
  exists t0 tw ts,
    issued w w' =
    [(t0, EvTransaction (coefficient_read addr));
     (tw, EvTransaction (conversion_trigger addr));
     (ts, EvSleep 40000);
     (tr, EvTransaction (adc_read addr))] /\
    tw <= ts /\ ts + 40000 <= tr.
Proof.
  cbv zeta. rewrite getPressTemp_world, getPressTemp_decode_run. cbv zeta.
  assert (Hstop1 :
    In (tr, EvTransaction (adc_read addr))
       (issued w (after_transaction (coefficient_read addr) w)) -> False).
  { rewrite (issued_app _ _ _ (log_after_coefficient_read addr w)).
    cbn. intros [[= _ ?]|[]]. }
  assert (Hstop2 :
    In (tr, EvTransaction (adc_read addr))
       (issued w (after_transaction (conversion_trigger addr)
                    (after_transaction (coefficient_read addr) w))) -> False).
  { rewrite (issued_app _ _ _ (log_after_trigger addr w)).
    cbn. intros [[= _ ?]|[[= _ ?]|[]]]. }
  assert (Hfull :
    In (tr, EvTransaction (adc_read addr))
       (issued w (after_measurement addr w)) ->
    exists t0 tw ts,
      issued w (after_measurement addr w) =
      [(t0, EvTransaction (coefficient_read addr));
       (tw, EvTransaction (conversion_trigger addr));
       (ts, EvSleep 40000);
       (tr, EvTransaction (adc_read addr))] /\
      tw <= ts /\ ts + 40000 <= tr).
  { rewrite (issued_app _ _ _ (log_after_measurement addr w)).
    unfold measurement_events. cbn [In].
    intros [[= _ ?]|[[= _ ?]|[[=]|[[= <-]|[]]]]].
    do 3 eexists. split; [reflexivity|]. lia. }
  fold (after_measurement addr w).
  destruct (range_answer (bus w 0%nat)) as [cb|e]; cbn [snd];
    [|intros H; destruct (Hstop1 H)].
  destruct (coefficient_words cb) as [cw|e]; cbn [snd];
    [|intros H; destruct (Hstop1 H)].
  destruct (bus w 1%nat) as [reads|msg]; cbn [snd];
    [|intros H; destruct (Hstop2 H)].
  destruct (range_answer (bus w 2%nat)) as [ab|e]; cbn [snd]; exact Hfull.
Qed.

Lemma sample_world_adc_read_time :
  In (40750, EvTransaction (adc_read default_addr))
     (issued sample_world (snd (getPressTemp (__init__ default_addr) sample_world))).
Proof. rewrite sample_world_measures. cbn. tauto. Qed.

Lemma getPressTemp_conversion_wait_witness :
  In (40750, EvTransaction (adc_read default_addr))
     (issued sample_world (snd (getPressTemp (__init__ default_addr) sample_world)))
  /\ exists t0 tw ts,
      issued sample_world (snd (getPressTemp (__init__ default_addr) sample_world)) =
      [(t0, EvTransaction (coefficient_read default_addr));
       (tw, EvTransaction (conversion_trigger default_addr));
       (ts, EvSleep 40000);
       (40750, EvTransaction (adc_read default_addr))] /\
      tw <= ts /\ ts + 40000 <= 40750.
Proof.
  split; [exact sample_world_adc_read_time|].
  exact (getPressTemp_conversion_wait default_addr sample_world 40750
           sample_world_adc_read_time).
Defined.

(** ** Determinism *)

(** C10. Two successful runs of [getPressTemp], on any two instances and in
    any two worlds, in which the coefficient read returns the same bytes and
    the ADC read returns the same bytes, return the same list; and the list
    returned has exactly two elements, both floats: the pressure, then the
    temperature. *)
Theorem getPressTemp_deterministic
    (addr1 addr2 : Z) (w1 w1' w2 w2' : World) (r1 r2 : list pyval) :
  getPressTemp (__init__ addr1) w1 = (Ok r1, w1') ->
  getPressTemp (__init__ addr2) w2 = (Ok r2, w2') ->
  first_read (bus w1 0%nat) = first_read (bus w2 0%nat) ->
  first_read (bus w1 2%nat) = first_read (bus w2 2%nat) ->
  r1 = r2 /\ exists pressure temperature,
               r1 = [PyFloat pressure; PyFloat temperature].
Proof.
  intros Hrun1 Hrun2 Hcoef Hadc.
  apply getPressTemp_Ok_inv in Hrun1 as (d1 & Hd1 & ->).
  apply getPressTemp_Ok_inv in Hrun2 as (d2 & Hd2 & ->).
  apply getPressTemp_decode_Ok_inv in Hd1
    as (cb1 & ab1 & Hcb1 & _ & _ & Hab1 & _ & -> & _).
  apply getPressTemp_decode_Ok_inv in Hd2
    as (cb2 & ab2 & Hcb2 & _ & _ & Hab2 & _ & -> & _).
  assert (cb1 = cb2) as -> by congruence.
  assert (ab1 = ab2) as -> by congruence.
  split; [reflexivity|].
  rewrite compensate_formula. eauto.
Qed.

Lemma sample_world_later_measures :
  getPressTemp (__init__ 0x61) sample_world_later =
  (Ok [PyFloat 204.68; PyFloat 26.7], after_measurement 0x61 sample_world_later).
Proof. vm_compute. reflexivity. Qed.

Lemma getPressTemp_deterministic_witness :
  [PyFloat 204.68; PyFloat 26.7] = [PyFloat 204.68; PyFloat 26.7] /\
  exists pressure temperature,
    [PyFloat 204.68; PyFloat 26.7] = [PyFloat pressure; PyFloat temperature].
Proof.
  exact (getPressTemp_deterministic default_addr 0x61
           sample_world _ sample_world_later _ _ _
           sample_world_measures sample_world_later_measures
           eq_refl eq_refl).
Defined.

(** ** The guarded register write *)

(** C1. On an instance as the constructor leaves it, [setReg] never gets to
    its guard: the attribute [regCfgA] was never set, so for every register
    and value, 0x01 and 0x05 among them, the call raises [AttributeError]
    and issues no transaction.  It neither writes a writable register nor
    refuses a read-only one with [ValueError]. *)
Theorem setReg_unset_bounds (addr register value : Z) (w : World) :
  setReg (__init__ addr) register value w =
  (Raise (AttributeError "regCfgA"), w).
Proof. unfold setReg. now rewrite getattr_regCfgA. Qed.

(** With the two bounds set as the docstring gives them, the guard does
    what it was written for: one write transaction for a register in
    [0x00, 0x02] and a value that is a byte ... *)
Lemma setReg_with_bounds_writable (addr register value : Z) (w : World) :
  0x00 <= register <= 0x02 -> 0 <= value <= 255 ->
  setReg (with_bounds (__init__ addr)) register value w =
  (match bus w 0%nat with
   | Done _ => Ok tt
   | Failed _ => Raise (IOError write_failure)
   end,
   after_transaction [writing_bytes addr [register; value]] w).
Proof.
  intros Hreg _. unfold setReg.
  rewrite getattr_bounds_regCfgA, bind_ret_l.
  destruct (Z.geb_spec register 0) as [_|Hlt]; [|lia].
  rewrite getattr_bounds_regMode, bind_ret_l.
  destruct (Z.leb_spec register 2) as [_|Hgt]; [|lia].
  now rewrite writeReg_run.
Qed.

(** ... and [ValueError] without any transaction for every other one. *)
Lemma setReg_with_bounds_refused (addr register value : Z) (w : World) :
  ~ 0x00 <= register <= 0x02 ->
  setReg (with_bounds (__init__ addr)) register value w =
  (Raise (ValueError "MPL115A2 register must be writable to set it."), w).
Proof.
  intros Hreg. unfold setReg.
  rewrite getattr_bounds_regCfgA, bind_ret_l.
  destruct (Z.geb_spec register 0) as [Hge|Hlt]; [|reflexivity].
  rewrite getattr_bounds_regMode, bind_ret_l.
  destruct (Z.leb_spec register 2) as [Hle|Hgt]; [lia|reflexivity].
Qed.

(** ** How transport failures surface *)

Lemma readReg_failure (self : mpl115a2) (register : Z) (w : World) (msg : string) :
  bus w 0%nat = Failed msg ->
  fst (__readReg self register w) = Raise (IOError read_failure).
Proof. intros H. now rewrite readReg_run, H. Qed.

Lemma writeReg_failure (self : mpl115a2) (register byte : Z) (w : World) (msg : string) :
  bus w 0%nat = Failed msg ->
  fst (__writeReg self register byte w) = Raise (IOError write_failure).
Proof. intros H. now rewrite writeReg_run, H. Qed.

(** The range read has no handler: the transport's own error passes through. *)
Lemma readRegRange_failure
    (self : mpl115a2) (regStart regEnd : Z) (w : World) (msg : string) :
  bus w 0%nat = Failed msg ->
  fst (__readRegRange self regStart regEnd w) = Raise (IOError msg).
Proof. intros H. now rewrite readRegRange_run, H. Qed.

(** C7. On a bus that refuses the transaction with
    "[Errno 121] Remote I/O error", [__readReg] and [__writeReg] raise an
    [IOError] with the driver's own description (failed to read, failed to
    write to, the MPL115A2 sensor), but [__readRegRange], and with it
    [getPressTemp], raises the transport's error as it came: its text says
    neither read nor write nor which device. *)
Theorem readRegRange_failure_undescribed :
  fst (__readReg (__init__ default_addr) 0x04 dead_bus) =
    Raise (IOError read_failure) /\
  fst (__writeReg (__init__ default_addr) 0x12 0x00 dead_bus) =
    Raise (IOError write_failure) /\
  fst (__readRegRange (__init__ default_addr) 0x04 0x0b dead_bus) =
    Raise (IOError "[Errno 121] Remote I/O error") /\
  fst (getPressTemp (__init__ default_addr) dead_bus) =
    Raise (IOError "[Errno 121] Remote I/O error") /\
  "[Errno 121] Remote I/O error" <> read_failure.
Proof. repeat split. discriminate. Qed.

(** * Further properties of the driver *)

(** ** [__getSigned] at its edges *)

(** X1. A width of zero or fewer bits has no sign bit to test: whatever the
    number, [__getSigned] raises [ValueError], because the mask
    [1 << (bits - 1)] is a shift by a negative count. *)
Theorem getSigned_no_width (x bits : Z) :
  bits <= 0 ->
  __getSigned x bits = Raise (ValueError "negative shift count").
Proof.
  intros Hb. unfold __getSigned, py_lshift.
  destruct (Z.ltb_spec (bits - 1) 0); [reflexivity|lia].
Qed.

Lemma getSigned_no_width_witness :
  0 <= 0 /\ __getSigned 0x8000 0 = Raise (ValueError "negative shift count").
Proof.
  split; [lia|].
  exact (getSigned_no_width 0x8000 0 ltac:(lia)).
Defined.

(** X2. Decoding loses nothing: on an unsigned [bits]-wide number the
    result lies in the signed range of that width and is the number again
    modulo [2^bits]. *)
Theorem getSigned_round_trip (x bits : Z) :
  1 <= bits -> 0 <= x < 2 ^ bits ->
  exists r,
    __getSigned x bits = Ok r /\
    - 2 ^ (bits - 1) <= r < 2 ^ (bits - 1) /\
    r mod 2 ^ bits = x.
Proof.
  intros Hb Hx. exists (Spec.toSigned x bits).
  split; [now apply getSigned_toSigned|].
  split; [now apply toSigned_range|].
  unfold Spec.toSigned.
  destruct (Z.testbit x (bits - 1)).
  - replace (x - 2 ^ bits) with (x + (-1) * 2 ^ bits) by lia.
    rewrite Z.mod_add by lia. now apply Z.mod_small.
  - now apply Z.mod_small.
Qed.

Lemma getSigned_round_trip_witness :
  (1 <= 14 /\ 0 <= 0x2000 < 2 ^ 14) /\
  exists r,
    __getSigned 0x2000 14 = Ok r /\
    - 2 ^ (14 - 1) <= r < 2 ^ (14 - 1) /\
    r mod 2 ^ 14 = 0x2000.
Proof.
  split; [cbn; lia|].
  exact (getSigned_round_trip 0x2000 14 ltac:(lia) ltac:(cbn; lia)).
Defined.

Lemma testbit_sub_pow2 (x bits : Z) :
  1 <= bits ->
  Z.testbit (x - 2 ^ bits) (bits - 1) = Z.testbit x (bits - 1).
Proof.
  intros Hb.
  rewrite <- (Z.mod_pow2_bits_low (x - 2 ^ bits) bits (bits - 1)) by lia.
  rewrite <- (Z.mod_pow2_bits_low x bits (bits - 1)) by lia.
  f_equal. replace (x - 2 ^ bits) with (x + (-1) * 2 ^ bits) by lia.
  apply Z.mod_add. lia.
Qed.

(** X3. The decoder is for unsigned input only.  Given a number it has
    already decoded to a negative value it subtracts [2^bits] a second
    time, and the result falls below the signed range. *)
Theorem getSigned_applied_twice (x bits : Z) :
  1 <= bits -> 2 ^ (bits - 1) <= x < 2 ^ bits ->
  __getSigned x bits = Ok (x - 2 ^ bits) /\
  __getSigned (x - 2 ^ bits) bits = Ok (x - 2 ^ bits - 2 ^ bits) /\
  x - 2 ^ bits - 2 ^ bits < - 2 ^ (bits - 1).
Proof.
  intros Hb Hx.
  assert (Hp : 2 ^ bits = 2 * 2 ^ (bits - 1)).
  { rewrite <- Z.pow_succ_r by lia. f_equal. lia. }
  assert (Hpos : 0 < 2 ^ (bits - 1)) by (apply Z.pow_pos_nonneg; lia).
  assert (Htop : Z.testbit x (bits - 1) = true).
  { rewrite testbit_top by lia. now apply Z.leb_le. }
  rewrite !getSigned_toSigned by lia. unfold Spec.toSigned.
  rewrite testbit_sub_pow2, Htop by lia.
  repeat split. lia.
Qed.

Lemma getSigned_applied_twice_witness :
  (1 <= 16 /\ 2 ^ (16 - 1) <= 0x8000 < 2 ^ 16) /\
  __getSigned 0x8000 16 = Ok (-32768) /\
  __getSigned (-32768) 16 = Ok (-98304) /\
  -98304 < -32768.
Proof.
  split; [cbn; lia|].
  exact (getSigned_applied_twice 0x8000 16 ltac:(lia) ltac:(cbn; lia)).
Defined.

(** ** The register accessors, one transaction each *)

Lemma issued_after_transaction (msgs : list i2c_msg) (w : World) :
  issued w (after_transaction msgs w) = [(clock w, EvTransaction msgs)].
Proof. now apply issued_app. Qed.

(** X4. When the bus answers with one byte, [__readReg] returns the value
    of that byte, a number from 0 to 255, and has issued one transaction:
    the register number written, one byte read. *)
Theorem readReg_returns_byte
    (self : mpl115a2) (register : Z) (w : World)
    (c : Byte.byte) (rest : list (list Byte.byte)) :
  0 <= register <= 255 ->
  bus w 0%nat = Done ([c] :: rest) ->
  exists v,
    fst (__readReg self register w) = Ok v /\
    v = Z.of_N (Byte.to_N c) /\ 0 <= v <= 255 /\
    issued w (snd (__readReg self register w)) =
    [(clock w,
      EvTransaction [writing_bytes (__addr self) [register];
                     reading (__addr self) 1])].
Proof.
  intros _ Hbus. exists (Z.of_N (Byte.to_N c)).
  rewrite readReg_run, Hbus. cbn [fst snd py_ord].
  pose proof (Byte.to_N_bounded c).
  repeat split; try lia. apply issued_after_transaction.
Qed.

Lemma readReg_returns_byte_witness :
  (0 <= 0x04 <= 255 /\ bus one_byte_world 0%nat = Done ([Byte.x2a] :: [])) /\
  exists v,
    fst (__readReg (__init__ default_addr) 0x04 one_byte_world) = Ok v /\
    v = Z.of_N (Byte.to_N Byte.x2a) /\ 0 <= v <= 255 /\
    issued one_byte_world
      (snd (__readReg (__init__ default_addr) 0x04 one_byte_world)) =
    [(clock one_byte_world,
      EvTransaction [writing_bytes (__addr (__init__ default_addr)) [0x04];
                     reading (__addr (__init__ default_addr)) 1])].
Proof.
  split; [split; [lia|reflexivity]|].
  exact (readReg_returns_byte (__init__ default_addr) 0x04 one_byte_world
           Byte.x2a [] ltac:(lia) eq_refl).
Defined.

(** X5. A range of one register is a single-register read: where
    [__readReg] returns a value, [__readRegRange] from that register to
    itself returns the one-element sequence of that value, having issued
    the same transaction and left the same world. *)
Theorem readRegRange_of_one_register
    (self : mpl115a2) (register v : Z) (w w' : World) :
  __readReg self register w = (Ok v, w') ->
  __readRegRange self register register w = (Ok [v], w').
Proof.
  rewrite readReg_run, readRegRange_run.
  replace (register - register + 1) with 1 by lia.
  destruct (bus w 0%nat) as [[|first rest]|msg]; try discriminate.
  cbn [range_answer]. unfold py_ord.
  destruct first as [|c [|c' first]]; try discriminate.
  now intros [= <- <-].
Qed.

Lemma readRegRange_of_one_register_witness :
  __readReg (__init__ default_addr) 0x04 one_byte_world =
  (Ok 42,
   after_transaction
     [writing_bytes default_addr [0x04]; reading default_addr 1]
     one_byte_world) /\
  __readRegRange (__init__ default_addr) 0x04 0x04 one_byte_world =
  (Ok [42],
   after_transaction
     [writing_bytes default_addr [0x04]; reading default_addr 1]
     one_byte_world).
Proof.
  split; [reflexivity|].
  exact (readRegRange_of_one_register (__init__ default_addr) 0x04 42
           one_byte_world _ eq_refl).
Defined.

Lemma bytearray_Forall (b : list Byte.byte) :
  Forall (fun z => 0 <= z <= 255) (bytearray b).
Proof.
  induction b as [|c b IH]; cbn; constructor; [|exact IH].
  pose proof (Byte.to_N_bounded c). lia.
Qed.

(** X6. Whenever [__readRegRange] returns, it returns one integer from 0 to
    255 for each byte the bus handed back for the read, as many as those
    are, whether or not that is the count [regEnd - regStart + 1] it asked
    for; and it has issued one transaction. *)
Theorem readRegRange_returns_bytes
    (self : mpl115a2) (regStart regEnd : Z) (w w' : World) (l : list Z) :
  0 <= regStart <= 255 -> regStart <= regEnd ->
  __readRegRange self regStart regEnd w = (Ok l, w') ->
  exists b,
    first_read (bus w 0%nat) = Some b /\
    length l = length b /\
    Forall (fun z => 0 <= z <= 255) l /\
    issued w w' =
    [(clock w,
      EvTransaction [writing_bytes (__addr self) [regStart];
                     reading (__addr self) (regEnd - regStart + 1)])].
Proof.
  intros _ _. rewrite readRegRange_run. intros [= Hans <-].
  apply range_answer_Ok in Hans as (b & Hb & ->).
  exists b. split; [exact Hb|].
  split; [apply bytearray_length|].
  split; [apply bytearray_Forall|apply issued_after_transaction].
Qed.

Lemma readRegRange_returns_bytes_witness :
  (0 <= 0x04 <= 255 /\ 0x04 <= 0x0b) /\
  exists b,
    first_read (bus short_coefficients_world 0%nat) = Some b /\
    length [62; 232] = length b /\
    Forall (fun z => 0 <= z <= 255) [62; 232] /\
    issued short_coefficients_world
      (after_transaction
         [writing_bytes default_addr [0x04]; reading default_addr 8]
         short_coefficients_world) =
    [(clock short_coefficients_world,
      EvTransaction [writing_bytes (__addr (__init__ default_addr)) [0x04];
                     reading (__addr (__init__ default_addr))
                       (0x0b - 0x04 + 1)])].
Proof.
  split; [lia|].
  exact (readRegRange_returns_bytes (__init__ default_addr) 0x04 0x0b
           short_coefficients_world _ [62; 232]
           ltac:(lia) ltac:(lia) eq_refl).
Defined.

(** X7. [__writeReg] has two outcomes only: it returns when the bus accepts
    the transaction, and raises [IOError] with the driver's write message
    when the bus refuses it.  Either way it has issued the one transaction
    that writes the register number and the byte, and nothing else. *)
Theorem writeReg_outcomes
    (self : mpl115a2) (register byte : Z) (w : World) :
  0 <= register <= 255 -> 0 <= byte <= 255 ->
  let run := __writeReg self register byte w in
  ((exists reads, bus w 0%nat = Done reads) /\ fst run = Ok tt \/
   (exists msg, bus w 0%nat = Failed msg) /\
   fst run = Raise (IOError write_failure)) /\
  issued w (snd run) =
  [(clock w, EvTransaction [writing_bytes (__addr self) [register; byte]])].
Proof.
  intros _ _ run. subst run. rewrite writeReg_run. cbn [fst snd].
  split; [|apply issued_after_transaction].
  destruct (bus w 0%nat) as [reads|msg]; [left|right]; eauto.
Qed.

Lemma writeReg_outcomes_witness :
  (0 <= 0x12 <= 255 /\ 0 <= 0x00 <= 255) /\
  ((exists reads, bus dead_bus 0%nat = Done reads) /\
   fst (__writeReg (__init__ default_addr) 0x12 0x00 dead_bus) = Ok tt \/
   (exists msg, bus dead_bus 0%nat = Failed msg) /\
   fst (__writeReg (__init__ default_addr) 0x12 0x00 dead_bus) =
   Raise (IOError write_failure)) /\
  issued dead_bus (snd (__writeReg (__init__ default_addr) 0x12 0x00 dead_bus)) =
  [(clock dead_bus,
    EvTransaction [writing_bytes (__addr (__init__ default_addr)) [0x12; 0x00]])].
Proof.
  split; [lia|].
  exact (writeReg_outcomes (__init__ default_addr) 0x12 0x00 dead_bus
           ltac:(lia) ltac:(lia)).
Defined.

(** ** Every outcome of a measurement *)

Lemma range_answer_Raise (o : outcome) (e : exn) :
  range_answer o = Raise e ->
  e = IndexError \/ exists msg, e = IOError msg.
Proof.
  destruct o as [[|first rest]|msg]; cbn; intros [= <-]; eauto.
Qed.

Lemma coefficient_words_raises (cb : list Z) (e : exn) :
  coefficient_words cb = Raise e -> e = IndexError.
Proof.
  unfold coefficient_words.
  destruct (word_at cb 0) eqn:E0; cbn [rbind];
    [|intros [= <-]; exact (word_at_raises _ _ _ E0)].
  destruct (word_at cb 2) eqn:E2; cbn [rbind];
    [|intros [= <-]; exact (word_at_raises _ _ _ E2)].
  destruct (word_at cb 4) eqn:E4; cbn [rbind];
    [|intros [= <-]; exact (word_at_raises _ _ _ E4)].
  destruct (word_at cb 6) eqn:E6; cbn [rbind];
    [discriminate|intros [= <-]; exact (word_at_raises _ _ _ E6)].
Qed.

Lemma finish_decode_raises (cw : Z * Z * Z * Z) (ab : list Z) (e : exn) :
  finish_decode cw ab = Raise e -> e = IndexError.
Proof.
  destruct cw as [[[a0 b1] b2] c12]. unfold finish_decode.
  destruct (word_at ab 0) eqn:E0; cbn [rbind];
    [|intros [= <-]; exact (word_at_raises _ _ _ E0)].
  destruct (word_at ab 2) eqn:E2; cbn [rbind];
    [|intros [= <-]; exact (word_at_raises _ _ _ E2)].
  rewrite !getSigned_toSigned by lia. discriminate.
Qed.

(** The decoding half of the routine stops after one, two or all four
    events, and raises nothing but [IOError] and [IndexError]. *)
Lemma getPressTemp_decode_outcomes (addr : Z) (w : World) :
  let run := getPressTemp_decode (__init__ addr) w in
  exists n : nat,
    issued w (snd run) = take n (measurement_events addr w) /\
    match fst run with
    | Ok _ => n = 4%nat
    | Raise (IOError _) => n = 1%nat \/ n = 2%nat \/ n = 4%nat
    | Raise IndexError => n = 1%nat \/ n = 4%nat
    | Raise _ => False
    end.
Proof.
  cbv zeta. rewrite getPressTemp_decode_run. cbv zeta.
  fold (after_measurement addr w).
  pose proof (issued_app _ _ _ (log_after_coefficient_read addr w)) as H1.
  pose proof (issued_app _ _ _ (log_after_trigger addr w)) as H2.
  pose proof (issued_app _ _ _ (log_after_measurement addr w)) as H4.
  destruct (range_answer (bus w 0%nat)) as [cb|e] eqn:E0.
  2:{ exists 1%nat. split; [exact H1|]. cbn [fst].
      destruct (range_answer_Raise _ _ E0) as [->|[msg ->]]; auto. }
  destruct (coefficient_words cb) as [cw|e] eqn:Ec.
  2:{ exists 1%nat. split; [exact H1|]. cbn [fst].
      rewrite (coefficient_words_raises _ _ Ec). auto. }
  destruct (bus w 1%nat) as [reads|msg].
  2:{ exists 2%nat. split; [exact H2|]. cbn [fst]. auto. }
  exists 4%nat. split.
  { destruct (range_answer (bus w 2%nat)); exact H4. }
  destruct (range_answer (bus w 2%nat)) as [ab|e] eqn:E2; cbn [fst].
  2:{ destruct (range_answer_Raise _ _ E2) as [->|[msg ->]]; auto. }
  destruct (finish_decode cw ab) as [d|e] eqn:Ef; [reflexivity|].
  rewrite (finish_decode_raises _ _ _ Ef). auto.
Qed.

Lemma getPressTemp_result (self : mpl115a2) (w : World) :
  fst (getPressTemp self w) =
  match fst (getPressTemp_decode self w) with
  | Ok d => Ok (getPressTemp_compensate (getPressTemp_scale d) (pAdc d) (tAdc d))
  | Raise e => Raise e
  end.
Proof.
  unfold getPressTemp. rewrite bind_run.
  now destruct (getPressTemp_decode self w) as [[d|e] w1].
Qed.

(** X8. Whatever the bus does, a call of [getPressTemp] issues a beginning
    of the same four events (coefficient read, trigger write, sleep, ADC
    read), never another event and never one out of order: all four when
    it returns, one, two or four when it raises [IOError], one or four when
    it raises [IndexError].  It raises no other exception. *)
Theorem getPressTemp_outcomes (addr : Z) (w : World) :
  let run := getPressTemp (__init__ addr) w in
  exists n : nat,
    issued w (snd run) = take n (measurement_events addr w) /\
    match fst run with
    | Ok _ => n = 4%nat
    | Raise (IOError _) => n = 1%nat \/ n = 2%nat \/ n = 4%nat
    | Raise IndexError => n = 1%nat \/ n = 4%nat
    | Raise _ => False
    end.
Proof.
  cbv zeta. rewrite getPressTemp_world, getPressTemp_result.
  destruct (getPressTemp_decode_outcomes addr w) as (n & Hlog & Hres).
  exists n. split; [exact Hlog|].
  now destruct (fst (getPressTemp_decode (__init__ addr) w)).
Qed.

(** X9. [getPressTemp] returns a measurement exactly when the bus answers
    the coefficient read with at least eight bytes, accepts the trigger
    write, and answers the ADC read with at least four bytes. *)
Theorem getPressTemp_returns_iff (addr : Z) (w : World) :
  (exists r w', getPressTemp (__init__ addr) w = (Ok r, w')) <->
  (exists cb ab,
      first_read (bus w 0%nat) = Some cb /\ (8 <= length cb)%nat /\
      (exists reads, bus w 1%nat = Done reads) /\
      first_read (bus w 2%nat) = Some ab /\ (4 <= length ab)%nat).
Proof.
  split.
  - intros (r & w' & Hrun).
    apply getPressTemp_Ok_inv in Hrun as (d & Hd & _).
    apply getPressTemp_decode_Ok_inv in Hd
      as (cb & ab & Hcb & Hlc & Hw & Hab & Hla & _).
    exists cb, ab. auto.
  - intros (cb & ab & Hcb & Hlc & Hw & Hab & Hla).
    pose proof (getPressTemp_decode_Ok addr w cb ab Hcb Hlc Hw Hab Hla) as Hd.
    do 2 eexists. unfold getPressTemp. rewrite bind_run, Hd. reflexivity.
Qed.

Lemma getPressTemp_returns_iff_witness :
  exists r w', getPressTemp (__init__ default_addr) sample_world = (Ok r, w').
Proof.
  apply (proj2 (getPressTemp_returns_iff default_addr sample_world)).
  exists sample_coefficients, sample_adc. exact sample_world_answers.
Defined.

(** ** Answers that are too short *)

Lemma range_answer_short (o : outcome) (reads : list (list Byte.byte)) (n : nat) :
  o = Done reads ->
  (forall b, first_read o = Some b -> (length b < n)%nat) ->
  range_answer o = Raise IndexError \/
  exists b, range_answer o = Ok (bytearray b) /\ (length b < n)%nat.
Proof.
  intros -> Hshort. destruct reads as [|b rest]; cbn; [now left|].
  right. exists b. split; [reflexivity|]. now apply Hshort.
Qed.

(** X10. When the bus answers the coefficient read with fewer than eight
    bytes, or with no bytes object at all, [getPressTemp] raises
    [IndexError] while it assembles the coefficients: the coefficient read
    is all it has issued, and no conversion was triggered. *)
Theorem getPressTemp_short_coefficients
    (addr : Z) (w : World) (reads : list (list Byte.byte)) :
  bus w 0%nat = Done reads ->
  (forall cb, first_read (bus w 0%nat) = Some cb -> (length cb < 8)%nat) ->
  let run := getPressTemp (__init__ addr) w in
  fst run = Raise IndexError /\
  issued w (snd run) =
  [(clock w, EvTransaction [writing_bytes addr [0x04]; reading addr 8])].
Proof.
  intros Hbus Hshort run. subst run.
  rewrite getPressTemp_world, getPressTemp_result, getPressTemp_decode_run.
  cbv zeta.
  pose proof (issued_app _ _ _ (log_after_coefficient_read addr w)) as H1.
  destruct (range_answer_short _ _ 8 Hbus Hshort) as [->|(cb & -> & Hlen)].
  - split; [reflexivity|exact H1].
  - rewrite coefficient_words_short by now rewrite bytearray_length.
    split; [reflexivity|exact H1].
Qed.

Lemma getPressTemp_short_coefficients_witness :
  fst (getPressTemp (__init__ default_addr) short_coefficients_world) =
  Raise IndexError /\
  issued short_coefficients_world
    (snd (getPressTemp (__init__ default_addr) short_coefficients_world)) =
  [(clock short_coefficients_world,
    EvTransaction [writing_bytes default_addr [0x04]; reading default_addr 8])].
Proof.
  apply (getPressTemp_short_coefficients default_addr short_coefficients_world
           [[Byte.x3e; Byte.xe8]] eq_refl).
  intros cb [= <-]. cbn. lia.
Defined.

(** X11. When the coefficient read and the trigger write went through and
    the bus answers the ADC read with fewer than four bytes, or with no
    bytes object, [getPressTemp] raises [IndexError] only then: the
    conversion was triggered and waited for, and all four events were
    issued. *)
Theorem getPressTemp_short_adc
    (addr : Z) (w : World) (cb : list Byte.byte)
    (accepted reads : list (list Byte.byte)) :
  first_read (bus w 0%nat) = Some cb -> (8 <= length cb)%nat ->
  bus w 1%nat = Done accepted ->
  bus w 2%nat = Done reads ->
  (forall ab, first_read (bus w 2%nat) = Some ab -> (length ab < 4)%nat) ->
  let run := getPressTemp (__init__ addr) w in
  fst run = Raise IndexError /\
  issued w (snd run) = measurement_events addr w.
Proof.
  intros Hcb Hlc Hacc Hbus Hshort run. subst run.
  rewrite getPressTemp_world, getPressTemp_result, getPressTemp_decode_run.
  cbv zeta. fold (after_measurement addr w).
  pose proof (issued_app _ _ _ (log_after_measurement addr w)) as H4.
  rewrite (first_read_range_answer _ _ Hcb), coefficient_words_Ok, Hacc
    by exact Hlc.
  destruct (range_answer_short _ _ 4 Hbus Hshort) as [->|(ab & -> & Hlen)].
  - split; [reflexivity|exact H4].
  - rewrite finish_decode_short by now rewrite bytearray_length.
    split; [reflexivity|exact H4].
Qed.

Lemma getPressTemp_short_adc_witness :
  fst (getPressTemp (__init__ default_addr) short_adc_world) =
  Raise IndexError /\
  issued short_adc_world
    (snd (getPressTemp (__init__ default_addr) short_adc_world)) =
  measurement_events default_addr short_adc_world.
Proof.
  apply (getPressTemp_short_adc default_addr short_adc_world
           sample_coefficients [] [[Byte.x6c]] eq_refl).
  - cbn. lia.
  - reflexivity.
  - reflexivity.
  - intros ab [= <-]. cbn. lia.
Defined.

(** ** How long a measurement takes *)

(** X12. A call of [getPressTemp] that returns has taken the 40 ms of the
    conversion wait and whatever its four events took on top; it never
    returns a measurement sooner than 40 ms after it was called. *)
Theorem getPressTemp_duration
    (addr : Z) (w w' : World) (r : list pyval) :
  getPressTemp (__init__ addr) w = (Ok r, w') ->
  clock w' =
  clock w + 40000 +
  Z.of_N (lag w 0%nat + lag w 1%nat + lag w 2%nat + lag w 3%nat) /\
  clock w + 40000 <= clock w'.
Proof.
  intros Hrun.
  apply getPressTemp_Ok_inv in Hrun as (d & Hd & _).
  apply getPressTemp_decode_Ok_inv in Hd
    as (cb & ab & _ & _ & _ & _ & _ & _ & ->).
  cbn. lia.
Qed.

Lemma getPressTemp_duration_witness :
  clock (after_measurement default_addr sample_world) =
  clock sample_world + 40000 +
  Z.of_N (lag sample_world 0%nat + lag sample_world 1%nat +
          lag sample_world 2%nat + lag sample_world 3%nat) /\
  clock sample_world + 40000 <= clock (after_measurement default_addr sample_world).
Proof.
  exact (getPressTemp_duration default_addr sample_world _ _
           sample_world_measures).
Defined.

(** ** Which bits of the answers count *)

Lemma toSigned_mod (x bits : Z) :
  1 <= bits -> 0 <= x < 2 ^ bits -> Spec.toSigned x bits mod 2 ^ bits = x.
Proof.
  intros Hb Hx. unfold Spec.toSigned.
  destruct (Z.testbit x (bits - 1)).
  - replace (x - 2 ^ bits) with (x + (-1) * 2 ^ bits) by lia.
    rewrite Z.mod_add by lia. now apply Z.mod_small.
  - now apply Z.mod_small.
Qed.

(** Bytes of a bytearray of known minimal length. *)
Lemma bytearray_at_least (b : list Byte.byte) (n : nat) :
  (n <= length b)%nat ->
  exists front back,
    bytearray b = front ++ back /\ length front = n /\
    Forall (fun z => 0 <= z <= 255) front.
Proof.
  intros Hlen. exists (take n (bytearray b)), (drop n (bytearray b)).
  split; [now rewrite take_drop|].
  split; [rewrite length_take, bytearray_length; lia|].
  apply Forall_take, bytearray_Forall.
Qed.

Lemma respell_decode (cb ab : list Byte.byte) :
  (8 <= length cb)%nat -> (4 <= length ab)%nat ->
  respell (Spec.decode (bytearray cb) (bytearray ab)) =
  significant (bytearray cb) (bytearray ab).
Proof.
  intros Hlc Hla.
  destruct (bytearray_at_least cb 8 Hlc) as (cf & cr & -> & Hcf & Hcr).
  destruct (bytearray_at_least ab 4 Hla) as (af & ar & -> & Haf & Har).
  destruct cf as [|c0 [|c1 [|c2 [|c3 [|c4 [|c5 [|c6 [|c7 [|]]]]]]]]];
    try discriminate.
  destruct af as [|d0 [|d1 [|d2 [|d3 [|]]]]]; try discriminate.
  repeat match goal with H : Forall _ (_ :: _) |- _ =>
    apply Forall_cons in H as [? H] end.
  unfold respell, significant, Spec.decode, Spec.big_endian. cbn.
  change (2 ^ 2) with 4. change (2 ^ 6) with 64.
  assert (Hq : 0 <= (256 * c6 + c7) / 4 < 2 ^ 14).
  { change (2 ^ 14) with 16384. Z.div_mod_to_equations. lia. }
  rewrite !toSigned_mod by (try exact Hq; change (2 ^ 16) with 65536; lia).
  repeat f_equal; Z.div_mod_to_equations; lia.
Qed.

Lemma decode_significant (cb1 ab1 cb2 ab2 : list Byte.byte) :
  (8 <= length cb1)%nat -> (4 <= length ab1)%nat ->
  (8 <= length cb2)%nat -> (4 <= length ab2)%nat ->
  significant (bytearray cb1) (bytearray ab1) =
  significant (bytearray cb2) (bytearray ab2) ->
  Spec.decode (bytearray cb1) (bytearray ab1) =
  Spec.decode (bytearray cb2) (bytearray ab2).
Proof.
  intros Hlc1 Hla1 Hlc2 Hla2.
  destruct (bytearray_at_least cb1 8 Hlc1) as (cf1 & cr1 & -> & Hcf1 & _).
  destruct (bytearray_at_least ab1 4 Hla1) as (af1 & ar1 & -> & Haf1 & _).
  destruct (bytearray_at_least cb2 8 Hlc2) as (cf2 & cr2 & -> & Hcf2 & _).
  destruct (bytearray_at_least ab2 4 Hla2) as (af2 & ar2 & -> & Haf2 & _).
  destruct cf1 as [|c0 [|c1 [|c2 [|c3 [|c4 [|c5 [|c6 [|c7 [|]]]]]]]]];
    try discriminate.
  destruct af1 as [|d0 [|d1 [|d2 [|d3 [|]]]]]; try discriminate.
  destruct cf2 as [|c0' [|c1' [|c2' [|c3' [|c4' [|c5' [|c6' [|c7' [|]]]]]]]]];
    try discriminate.
  destruct af2 as [|d0' [|d1' [|d2' [|d3' [|]]]]]; try discriminate.
  unfold significant, Spec.decode, Spec.big_endian. cbn.
  intros [= <- <- <- <- <- <- <- H7 <- H1 <- H3].
  change (2 ^ 2) with 4. change (2 ^ 6) with 64.
  replace ((256 * c6 + c7) / 4) with (64 * c6 + c7 / 4)
    by (Z.div_mod_to_equations; lia).
  replace ((256 * c6 + c7') / 4) with (64 * c6 + c7' / 4)
    by (Z.div_mod_to_equations; lia).
  replace ((256 * d0 + d1) / 64) with (4 * d0 + d1 / 64)
    by (Z.div_mod_to_equations; lia).
  replace ((256 * d0 + d1') / 64) with (4 * d0 + d1' / 64)
    by (Z.div_mod_to_equations; lia).
  replace ((256 * d2 + d3) / 64) with (4 * d2 + d3 / 64)
    by (Z.div_mod_to_equations; lia).
  replace ((256 * d2 + d3') / 64) with (4 * d2 + d3' / 64)
    by (Z.div_mod_to_equations; lia).
  now rewrite H7, H1, H3.
Qed.

(** X13. The measurement depends on the significant bits of the two
    answers only: two calls that return, and whose answers agree on
    coefficient bytes 0 to 6, on the six high bits of coefficient byte 7, on
    ADC bytes 0 and 2 and on the two high bits of ADC bytes 1 and 3, return
    the same pressure and temperature, whatever the padding bits and any
    further bytes are. *)
Theorem getPressTemp_significant_bits
    (addr1 addr2 : Z) (w1 w1' w2 w2' : World) (r1 r2 : list pyval)
    (cb1 ab1 cb2 ab2 : list Byte.byte) :
  getPressTemp (__init__ addr1) w1 = (Ok r1, w1') ->
  getPressTemp (__init__ addr2) w2 = (Ok r2, w2') ->
  first_read (bus w1 0%nat) = Some cb1 ->
  first_read (bus w1 2%nat) = Some ab1 ->
  first_read (bus w2 0%nat) = Some cb2 ->
  first_read (bus w2 2%nat) = Some ab2 ->
  significant (bytearray cb1) (bytearray ab1) =
  significant (bytearray cb2) (bytearray ab2) ->
  r1 = r2.
Proof.
  intros Hrun1 Hrun2 Hcb1 Hab1 Hcb2 Hab2 Hsig.
  apply getPressTemp_Ok_inv in Hrun1 as (d1 & Hd1 & ->).
  apply getPressTemp_Ok_inv in Hrun2 as (d2 & Hd2 & ->).
  apply getPressTemp_decode_Ok_inv in Hd1
    as (cb1' & ab1' & Hcb1' & Hlc1 & _ & Hab1' & Hla1 & -> & _).
  apply getPressTemp_decode_Ok_inv in Hd2
    as (cb2' & ab2' & Hcb2' & Hlc2 & _ & Hab2' & Hla2 & -> & _).
  assert (cb1' = cb1) as -> by congruence.
  assert (ab1' = ab1) as -> by congruence.
  assert (cb2' = cb2) as -> by congruence.
  assert (ab2' = ab2) as -> by congruence.
  now rewrite (decode_significant cb1 ab1 cb2 ab2 Hlc1 Hla1 Hlc2 Hla2 Hsig).
Qed.

Lemma padded_world_measures :
  getPressTemp (__init__ default_addr) padded_world =
  (Ok [PyFloat 204.68; PyFloat 26.7], after_measurement default_addr padded_world).
Proof. vm_compute. reflexivity. Qed.

Lemma getPressTemp_significant_bits_witness :
  [PyFloat 204.68; PyFloat 26.7] = [PyFloat 204.68; PyFloat 26.7].
Proof.
  exact (getPressTemp_significant_bits default_addr default_addr
           sample_world _ padded_world _ _ _ _ _ _ _
           sample_world_measures padded_world_measures
           eq_refl eq_refl eq_refl eq_refl eq_refl).
Defined.

(** X14. Nothing but the padding is lost in decoding: from the integers
    [getPressTemp] has decoded, the significant bits of the two answers can
    be spelled back, byte for byte. *)
Theorem getPressTemp_decode_round_trip
    (addr : Z) (w w' : World) (d : decoded) (cb ab : list Byte.byte) :
  getPressTemp_decode (__init__ addr) w = (Ok d, w') ->
  first_read (bus w 0%nat) = Some cb ->
  first_read (bus w 2%nat) = Some ab ->
  respell d = significant (bytearray cb) (bytearray ab).
Proof.
  intros Hrun Hcb Hab.
  apply getPressTemp_decode_Ok_inv in Hrun
    as (cb' & ab' & Hcb' & Hlc & _ & Hab' & Hla & -> & _).
  assert (cb' = cb) as -> by congruence.
  assert (ab' = ab) as -> by congruence.
  now apply respell_decode.
Qed.

Lemma getPressTemp_decode_round_trip_witness :
  respell sample_decoded =
  significant (bytearray sample_coefficients) (bytearray sample_adc).
Proof.
  exact (getPressTemp_decode_round_trip default_addr sample_world _
           sample_decoded sample_coefficients sample_adc
           sample_world_decodes eq_refl eq_refl).
Defined.

(** ** The guard of [setReg], on any instance *)

(** X15. Whatever attributes an instance carries, [setReg] either issues
    nothing at all and raises [AttributeError] or [ValueError], or issues
    the single transaction that writes the byte to the register; and it
    does the latter only if both bounds are set and the register lies
    between them.  It never writes a register outside its guard. *)
Theorem setReg_guard
    (self : mpl115a2) (register value : Z) (w : World) :
  0 <= register <= 255 -> 0 <= value <= 255 ->
  let run := setReg self register value w in
  (snd run = w /\
   ((exists name, fst run = Raise (AttributeError name)) \/
    (exists msg, fst run = Raise (ValueError msg))))
  \/
  (exists lo hi,
      __dict__ self !! "regCfgA" = Some lo /\
      __dict__ self !! "regMode" = Some hi /\
      lo <= register <= hi /\
      issued w (snd run) =
      [(clock w,
        EvTransaction [writing_bytes (__addr self) [register; value]])]).
Proof.
  intros _ _ run. subst run. unfold setReg, getattr.
  rewrite bind_lift.
  destruct (__dict__ self !! "regCfgA") as [lo|] eqn:Hlo;
    [|left; split; [reflexivity|left; eauto]].
  destruct (Z.geb_spec register lo) as [Hge|Hlt];
    [|left; split; [reflexivity|right; eauto]].
  rewrite bind_lift.
  destruct (__dict__ self !! "regMode") as [hi|] eqn:Hhi;
    [|left; split; [reflexivity|left; eauto]].
  destruct (Z.leb_spec register hi) as [Hle|Hgt];
    [|left; split; [reflexivity|right; eauto]].
  right. exists lo, hi. rewrite writeReg_run. cbn [snd].
  repeat split; try lia. apply issued_after_transaction.
Qed.

Lemma setReg_guard_witness :
  (0 <= 0x01 <= 255 /\ 0 <= 0x7f <= 255) /\
  ((snd (setReg bounded 0x01 0x7f sample_world) = sample_world /\
    ((exists name,
         fst (setReg bounded 0x01 0x7f sample_world) =
         Raise (AttributeError name)) \/
     (exists msg,
         fst (setReg bounded 0x01 0x7f sample_world) =
         Raise (ValueError msg))))
   \/
   (exists lo hi,
       __dict__ bounded !! "regCfgA" = Some lo /\
       __dict__ bounded !! "regMode" = Some hi /\
       lo <= 0x01 <= hi /\
       issued sample_world (snd (setReg bounded 0x01 0x7f sample_world)) =
       [(clock sample_world,
         EvTransaction [writing_bytes (__addr bounded) [0x01; 0x7f]])])).
Proof.
  split; [lia|].
  exact (setReg_guard bounded 0x01 0x7f sample_world ltac:(lia) ltac:(lia)).
Defined.

(** X16. The guard reads its upper bound only when the lower one lets the
    register pass.  On an instance with [regCfgA] set and [regMode] not, a
    register below [regCfgA] is refused with [ValueError], and any other
    raises [AttributeError] for [regMode]; nothing is written either way. *)
Theorem setReg_lower_bound_only
    (self : mpl115a2) (lo register value : Z) (w : World) :
  __dict__ self !! "regCfgA" = Some lo ->
  __dict__ self !! "regMode" = None ->
  setReg self register value w =
  (Raise (if register >=? lo
          then AttributeError "regMode"
          else ValueError "MPL115A2 register must be writable to set it."),
   w).
Proof.
  intros Hlo Hhi. unfold setReg, getattr.
  rewrite bind_lift, Hlo.
  destruct (register >=? lo); [|reflexivity].
  now rewrite bind_lift, Hhi.
Qed.

Lemma setReg_lower_bound_only_witness :
  setReg (with_lower_bound (__init__ default_addr) 0x01) 0x00 0x7f dead_bus =
  (Raise (ValueError "MPL115A2 register must be writable to set it."),
   dead_bus) /\
  setReg (with_lower_bound (__init__ default_addr) 0x01) 0x02 0x7f dead_bus =
  (Raise (AttributeError "regMode"), dead_bus).
Proof.
  split.
  - exact (setReg_lower_bound_only
             (with_lower_bound (__init__ default_addr) 0x01) 0x01 0x00 0x7f
             dead_bus eq_refl eq_refl).
  - exact (setReg_lower_bound_only
             (with_lower_bound (__init__ default_addr) 0x01) 0x01 0x02 0x7f
             dead_bus eq_refl eq_refl).
Defined.

(** ** The temperature, over all ADC counts *)

Lemma forallb_below (f : Z -> bool) (n : nat) :
  forallb f (map Z.of_nat (seq 0 n)) = true ->
  forall z, 0 <= z < Z.of_nat n -> f z = true.
Proof.
  intros H z Hz. rewrite forallb_forall in H. apply H.
  apply in_map_iff. exists (Z.to_nat z). split; [lia|].
  apply in_seq. lia.
Qed.

(** The float order is transitive. *)
Lemma SFleb_trans (x y z : spec_float) :
  SFleb x y = true -> SFleb y z = true -> SFleb x z = true.
Proof.
  unfold SFleb, SFcompare.
  destruct x as [sx|sx| |sx mx ex], y as [sy|sy| |sy my ey],
    z as [sz|sz| |sz mz ez];
    try destruct sx; try destruct sy; try destruct sz;
    try reflexivity; try discriminate.
  all: change (Pos.compare_cont Eq ?a ?b) with (Pos.compare a b).
  all: destruct (Z.compare_spec ex ey), (Z.compare_spec ey ez),
         (Z.compare_spec ex ez); subst; try lia;
       try reflexivity; try discriminate.
  all: destruct (Pos.compare_spec mx my), (Pos.compare_spec my mz),
         (Pos.compare_spec mx mz); subst; cbn; try lia;
       try reflexivity; try discriminate.
Qed.

Lemma leb_trans (x y z : float) :
  PrimFloat.leb x y = true -> PrimFloat.leb y z = true ->
  PrimFloat.leb x z = true.
Proof. rewrite !FloatAxioms.leb_spec. apply SFleb_trans. Qed.

Lemma temperature_within_all (tAdc : Z) :
  0 <= tAdc <= 1023 -> temperature_within tAdc = true.
Proof.
  intros H. apply (forallb_below temperature_within 1024); [|lia].
  vm_compute. reflexivity.
Qed.

Lemma temperature_steps_down_all (tAdc : Z) :
  0 <= tAdc <= 1022 -> temperature_steps_down tAdc = true.
Proof.
  intros H. apply (forallb_below temperature_steps_down 1023); [|lia].
  vm_compute. reflexivity.
Qed.

Lemma temperature_antitone (lo : Z) (n : nat) :
  0 <= lo -> lo + Z.of_nat n <= 1023 ->
  PrimFloat.leb (Spec.temperatureC (lo + Z.of_nat n)) (Spec.temperatureC lo)
  = true.
Proof.
  intros Hlo. induction n as [|n IH]; intros Hhi.
  - assert (Hn : temperature_within lo = true)
      by (apply temperature_within_all; lia).
    apply andb_prop in Hn as [Hl Hu].
    replace (lo + Z.of_nat 0) with lo by lia.
    destruct (Z.eq_dec lo 1023) as [->|Hne]; [reflexivity|].
    assert (Hs : temperature_steps_down lo = true)
      by (apply temperature_steps_down_all; lia).
    now apply andb_prop in Hs as [Hs _].
  - assert (Hs : temperature_steps_down (lo + Z.of_nat n) = true)
      by (apply temperature_steps_down_all; lia).
    apply andb_prop in Hs as [_ Hs].
    replace (lo + Z.of_nat (S n)) with (lo + Z.of_nat n + 1) by lia.
    apply leb_trans with (1 := Hs). apply IH. lia.
Qed.

Lemma getPressTemp_temperature
    (addr : Z) (w w' : World) (p t : float) :
  getPressTemp (__init__ addr) w = (Ok [PyFloat p; PyFloat t], w') ->
  exists d,
    getPressTemp_decode (__init__ addr) w = (Ok d, w') /\
    0 <= tAdc d <= 1023 /\ t = Spec.temperatureC (tAdc d).
Proof.
  intros Hrun.
  apply getPressTemp_Ok_inv in Hrun as (d & Hd & Hr).
  rewrite compensate_formula in Hr. injection Hr as _ ->.
  exists d. split; [exact Hd|]. split; [|reflexivity].
  apply getPressTemp_decode_Ok_inv in Hd
    as (cb & ab & _ & _ & _ & _ & _ & -> & _).
  apply decode_ranges.
Qed.

(** X17. Whatever bytes the bus hands back, the temperature that
    [getPressTemp] returns is a number between -73.1 and 118.1 degrees,
    never an infinity and never a NaN. *)
Theorem getPressTemp_temperature_range
    (addr : Z) (w w' : World) (p t : float) :
  getPressTemp (__init__ addr) w = (Ok [PyFloat p; PyFloat t], w') ->
  PrimFloat.leb (-73.1) t = true /\ PrimFloat.leb t 118.1 = true.
Proof.
  intros Hrun.
  apply getPressTemp_temperature in Hrun as (d & _ & Hd & ->).
  apply andb_prop. exact (temperature_within_all _ Hd).
Qed.

Lemma getPressTemp_temperature_range_witness :
  PrimFloat.leb (-73.1) 26.7 = true /\ PrimFloat.leb 26.7 118.1 = true.
Proof.
  exact (getPressTemp_temperature_range default_addr sample_world _ _ _
           sample_world_measures).
Defined.

(** X18. The temperature falls as the temperature count rises: of two
    calls that return, the one that decoded the larger [tAdc] never returns
    the higher temperature. *)
Theorem getPressTemp_temperature_antitone
    (addr1 addr2 : Z) (w1 w1' w2 w2' : World) (d1 d2 : decoded)
    (p1 t1 p2 t2 : float) :
  getPressTemp_decode (__init__ addr1) w1 = (Ok d1, w1') ->
  getPressTemp_decode (__init__ addr2) w2 = (Ok d2, w2') ->
  getPressTemp (__init__ addr1) w1 = (Ok [PyFloat p1; PyFloat t1], w1') ->
  getPressTemp (__init__ addr2) w2 = (Ok [PyFloat p2; PyFloat t2], w2') ->
  tAdc d1 <= tAdc d2 ->
  PrimFloat.leb t2 t1 = true.
Proof.
  intros Hd1 Hd2 Hrun1 Hrun2 Hle.
  apply getPressTemp_temperature in Hrun1 as (d1' & Hd1' & Hr1 & ->).
  apply getPressTemp_temperature in Hrun2 as (d2' & Hd2' & Hr2 & ->).
  assert (d1' = d1) as -> by congruence.
  assert (d2' = d2) as -> by congruence.
  replace (tAdc d2) with (tAdc d1 + Z.of_nat (Z.to_nat (tAdc d2 - tAdc d1)))
    by lia.
  apply temperature_antitone; lia.
Qed.

Lemma cold_world_measures :
  getPressTemp (__init__ default_addr) cold_world =
  (Ok [PyFloat 232.77; PyFloat (-73.1)], after_measurement default_addr cold_world).
Proof. vm_compute. reflexivity. Qed.

Lemma getPressTemp_temperature_antitone_witness :
  tAdc sample_decoded <= 1023 /\ PrimFloat.leb (-73.1) 26.7 = true.
Proof.
  split; [cbn; lia|].
  exact (getPressTemp_temperature_antitone default_addr default_addr
           sample_world _ cold_world _
           sample_decoded (mkDecoded 16104 316 0 8038 432 1023) _ _ _ _
           sample_world_decodes eq_refl
           sample_world_measures cold_world_measures
           ltac:(cbn; lia)).
Defined.

(** ** The text of a float *)

Example py_repr_float_short : py_repr_float (0.1 + 0.2)%float = "0.30000000000000004".
Proof. vm_compute. reflexivity. Qed.

Example py_repr_float_whole : py_repr_float 100 = "100.0".
Proof. vm_compute. reflexivity. Qed.

Example py_repr_float_exponent : py_repr_float 1.5e-05 = "1.5e-05".
Proof. vm_compute. reflexivity. Qed.

Example py_repr_float_large : py_repr_float 1e16 = "1e+16".
Proof. vm_compute. reflexivity. Qed.

(** ** The demonstration script *)

Lemma mpl115a2Test_run (w : World) :
  let run := getPressTemp (__init__ default_addr) w in
  (exists e, fst run = Raise e /\ mpl115a2Test w = (Raise e, snd run, [])) \/
  (exists p t,
      run = (Ok [PyFloat p; PyFloat t], snd run) /\
      mpl115a2Test w =
      (Ok tt, snd run,
       ["Barometric pressure (kPa): " +:+ py_repr_float p;
        "Temperature (C):           " +:+ py_repr_float t])).
Proof.
  cbv zeta. unfold mpl115a2Test.
  destruct (getPressTemp (__init__ default_addr) w) as [[r|e] w'] eqn:Hrun.
  - right.
    destruct (getPressTemp_Ok_inv _ _ _ _ Hrun) as (d & _ & ->).
    rewrite compensate_formula. do 2 eexists. split; reflexivity.
  - left. exists e. split; reflexivity.
Qed.

(** X19. The script prints nothing when the measurement raises, and lets
    that exception through; when the measurement returns it prints exactly
    two lines, the pressure and then the temperature, each after its
    label.  It never stops between the two lines, and it leaves the world
    as the one measurement left it. *)
Theorem mpl115a2Test_outcomes (w : World) :
  let run := getPressTemp (__init__ default_addr) w in
  (exists e, fst run = Raise e /\ mpl115a2Test w = (Raise e, snd run, [])) \/
  (exists p t,
      fst run = Ok [PyFloat p; PyFloat t] /\
      mpl115a2Test w =
      (Ok tt, snd run,
       ["Barometric pressure (kPa): " +:+ py_repr_float p;
        "Temperature (C):           " +:+ py_repr_float t])).
Proof.
  destruct (mpl115a2Test_run w) as [Hfail|(p & t & Hrun & Hout)].
  - left. exact Hfail.
  - right. exists p, t. split; [now rewrite Hrun|exact Hout].
Qed.

Example mpl115a2Test_sample :
  mpl115a2Test sample_world =
  (Ok tt, after_measurement default_addr sample_world,
   ["Barometric pressure (kPa): 204.68"; "Temperature (C):           26.7"]).
Proof. vm_compute. reflexivity. Qed.

Example mpl115a2Test_dead_bus :
  mpl115a2Test dead_bus =
  (Raise (IOError "[Errno 121] Remote I/O error"),
   after_transaction (coefficient_read default_addr) dead_bus, []).
Proof. reflexivity. Qed.

Lemma temperature_text_ok_all (tAdc : Z) :
  0 <= tAdc <= 1023 -> temperature_text_ok tAdc = true.
Proof.
  intros H. apply (forallb_below temperature_text_ok 1024); [|lia].
  vm_compute. reflexivity.
Qed.

(** X20. Whenever the script prints the temperature, it prints it with
    exactly one digit after the decimal point, whatever bytes the sensor
    returned. *)
Theorem mpl115a2Test_temperature_text
    (w w' : World) (line1 line2 : string) :
  mpl115a2Test w = (Ok tt, w', [line1; line2]) ->
  exists text,
    line2 = "Temperature (C):           " +:+ text /\
    one_fraction_digit text = true.
Proof.
  intros Hscript.
  destruct (mpl115a2Test_run w) as [(e & _ & Hout)|(p & t & Hrun & Hout)];
    rewrite Hout in Hscript; [discriminate|].
  injection Hscript as _ _ <-.
  exists (py_repr_float t). split; [reflexivity|].
  apply getPressTemp_temperature in Hrun as (d & _ & Hd & ->).
  exact (temperature_text_ok_all _ Hd).
Qed.

Lemma mpl115a2Test_temperature_text_witness :
  exists text,
    "Temperature (C):           26.7" = "Temperature (C):           " +:+ text /\
    one_fraction_digit text = true.
Proof.
  exact (mpl115a2Test_temperature_text sample_world _ _ _ mpl115a2Test_sample).
Defined.
